(** * Depth-frame loading: [utilities.py] and [script.py]

    A shallow embedding of the loading half of the heat-map generator:
    the directory scan ([load_input_file_paths]), the frame decoder
    ([load_depth_data_frames]) and the batch loader
    ([load_depth_data_sets]), together with the slices of Python's
    [os.path], [open] and NumPy that these three functions call.

    Python code that prints, opens files and raises is written in a small
    state-and-exception monad [py]: the state is the trace of observable
    events (lines printed, files opened), the result is either a returned
    value or a raised exception. *)

From Stdlib Require Import ZArith List String Ascii Strings.Byte Lia.
From stdpp Require Import base list strings pretty.

Open Scope string_scope.

(* ================================================================== *)
(** ** Python: exceptions, observable events, the [py] monad *)
(* ================================================================== *)

Module Py.

(** The exception classes that the modelled code can raise.  [ValueError]
    carries [str(e)]; the [OSError] subclasses carry the path. *)
Inductive exn : Type :=
| ValueError (msg : string)
| ZeroDivisionError
| IndexError
| FileNotFoundError (path : string)
| PermissionError (path : string)
| IsADirectoryError (path : string)
| NotADirectoryError (path : string)
| SystemExit (code : Z).

(** What the outside world can observe of a run. *)
Inductive event : Type :=
| Print (line : string)
| Open (path : string)
| SaveFig (data_set_path : string) (frame_no : nat).

Definition trace := list event.

Inductive outcome (A : Type) : Type :=
| Return (a : A)
| Raise (e : exn).
Arguments Return {A} a.
Arguments Raise {A} e.

Definition py (A : Type) : Type := trace -> outcome A * trace.

#[global] Instance py_ret : MRet py := fun A a t => (Return a, t).

#[global] Instance py_bind : MBind py := fun A B k m t =>
  match m t with
  | (Return a, t') => k a t'
  | (Raise e, t') => (Raise e, t')
  end.

Definition raise {A} (e : exn) : py A := fun t => (Raise e, t).

Definition emit (ev : event) : py unit := fun t => (Return tt, (t ++ [ev])%list).

(** [print(line)] *)
Definition print (line : string) : py unit := emit (Print line).

(** [try: body / except <class> as e: handler]: [handler e] is [None] when
    the [except] clause does not match [e]; the exception then propagates. *)
Definition try_except {A} (body : py A) (handler : exn -> option (py A)) : py A :=
  fun t =>
    match body t with
    | (Return a, t') => (Return a, t')
    | (Raise e, t') =>
        match handler e with
        | Some h => h t'
        | None => (Raise e, t')
        end
    end.

(** [a % b] on Python ints: floored, and [ZeroDivisionError] for [b = 0]. *)
Definition int_mod (a b : Z) : py Z :=
  if (b =? 0)%Z then raise ZeroDivisionError else mret (a mod b)%Z.

(** [str(e)].  The program prints it for [ValueError] and for
    [FileNotFoundError] only; the path is quoted the way [repr] quotes a name
    that has no quote, backslash or control character in it. *)
Definition str_exn (e : exn) : string :=
  match e with
  | ValueError msg => msg
  | ZeroDivisionError => "integer modulo by zero"
  | IndexError => "too many indices for array"
  | FileNotFoundError p => "[Errno 2] No such file or directory: '" +:+ p +:+ "'"
  | PermissionError p => "[Errno 13] Permission denied: '" +:+ p +:+ "'"
  | IsADirectoryError p => "[Errno 21] Is a directory: '" +:+ p +:+ "'"
  | NotADirectoryError p => "[Errno 20] Not a directory: '" +:+ p +:+ "'"
  | SystemExit c => pretty c
  end.

(** Exit status of the interpreter when a top-level script ends with the
    given outcome: [SystemExit(c)] exits with [c], any other uncaught
    exception with 1. *)
Definition exit_status {A} (o : outcome A) : Z :=
  match o with
  | Return _ => 0
  | Raise (SystemExit c) => c
  | Raise _ => 1
  end%Z.

(** Insertion-ordered [dict]: assigning to a present key replaces the value
    in place, assigning to a new key appends. *)
Section Dict.
Context {V : Type}.

Definition dict := list (string * V).

Fixpoint dict_get (d : dict) (k : string) : option V :=
  match d with
  | [] => None
  | (k', v) :: d' => if bool_decide (k' = k) then Some v else dict_get d' k
  end.

Fixpoint dict_set (d : dict) (k : string) (v : V) : dict :=
  match d with
  | [] => [(k, v)]
  | (k', v') :: d' =>
      if bool_decide (k' = k) then (k', v) :: d' else (k', v') :: dict_set d' k v
  end.

Definition keys (d : dict) : list string := map fst d.
End Dict.
Arguments dict V : clear implicits.

End Py.

Import Py.

(* ================================================================== *)
(** ** [os], [os.path] (POSIX) and [open] over a file-system snapshot *)
(* ================================================================== *)

Module Os.

Inductive node : Type :=
| File (readable : bool) (content : list byte)
| Dir (entries : list string).

(** A snapshot of the file system: what is found at each path. *)
Definition filesystem := string -> option node.

Definition sep : ascii := "/"%char.
Definition extsep : ascii := "."%char.

Definition startswith (c : ascii) (s : string) : bool :=
  match s with
  | String a _ => Ascii.eqb a c
  | EmptyString => false
  end.

Fixpoint endswith (c : ascii) (s : string) : bool :=
  match s with
  | EmptyString => false
  | String a EmptyString => Ascii.eqb a c
  | String _ s' => endswith c s'
  end.

(** [posixpath.isabs] *)
Definition isabs (s : string) : bool := startswith sep s.

(** [posixpath.join(a, b)] *)
Definition join (a b : string) : string :=
  if startswith sep b then b
  else if (bool_decide (a = "") || endswith sep a)%bool then a +:+ b
  else a +:+ String sep b.

(** [s.rfind(c)]: index of the last occurrence, [-1] when there is none. *)
Fixpoint rfind_from (c : ascii) (s : string) (i last : Z) : Z :=
  match s with
  | EmptyString => last
  | String a s' => rfind_from c s' (i + 1)%Z (if Ascii.eqb a c then i else last)
  end.
Definition rfind (c : ascii) (s : string) : Z := rfind_from c s 0 (-1).

(** The loop of [genericpath._splitext] that skips leading dots: is there
    a character other than [.] at an index in [filenameIndex, dotIndex)? *)
Fixpoint name_before_dot (fuel : nat) (p : string) (filenameIndex dotIndex : Z) : bool :=
  match fuel with
  | O => false
  | S fuel' =>
      if (filenameIndex <? dotIndex)%Z then
        match String.get (Z.to_nat filenameIndex) p with
        | Some a =>
            if Ascii.eqb a extsep
            then name_before_dot fuel' p (filenameIndex + 1)%Z dotIndex
            else true
        | None => true
        end
      else false
  end.

(** [posixpath.splitext] *)
Definition splitext (p : string) : string * string :=
  let sepIndex := rfind sep p in
  let dotIndex := rfind extsep p in
  if ((sepIndex <? dotIndex)%Z
      && name_before_dot (String.length p) p (sepIndex + 1)%Z dotIndex)%bool
  then (String.substring 0 (Z.to_nat dotIndex) p,
        String.substring (Z.to_nat dotIndex) (String.length p - Z.to_nat dotIndex) p)
  else (p, "").

Section OnSnapshot.
Variable fs : filesystem.

(** [os.path.exists] *)
Definition exists_ (p : string) : bool :=
  match fs p with Some _ => true | None => false end.

(** [os.path.isfile] *)
Definition isfile (p : string) : bool :=
  match fs p with Some (File _ _) => true | _ => false end.

(** [os.listdir] *)
Definition listdir (p : string) : py (list string) :=
  match fs p with
  | Some (Dir entries) => mret entries
  | Some (File _ _) => raise (NotADirectoryError p)
  | None => raise (FileNotFoundError p)
  end.

(** [open(p, "rb")] followed by reading the whole file. *)
Definition open_rb (p : string) : py (list byte) :=
  emit (Open p);;
  match fs p with
  | Some (File true content) => mret content
  | Some (File false _) => raise (PermissionError p)
  | Some (Dir _) => raise (IsADirectoryError p)
  | None => raise (FileNotFoundError p)
  end.
End OnSnapshot.

End Os.

(* ================================================================== *)
(** ** NumPy: [fromfile], [reshape], indexing *)
(* ================================================================== *)

Module Np.

(** A [float64] is carried as its 64-bit pattern; the program only moves
    these values, it never computes with them. *)
Definition float64 := Z.

(** Little-endian value of a group of bytes (the byte order of the machines
    the recordings come from). *)
Fixpoint le_combine (bs : list byte) : Z :=
  match bs with
  | [] => 0
  | b :: bs' => Z.of_N (Byte.to_N b) + 256 * le_combine bs'
  end.

Definition byte_of_Z (z : Z) : byte := default x00 (Byte.of_N (Z.to_N z)).

(** The [n] low bytes of a value, least significant first. *)
Fixpoint le_split (n : nat) (v : Z) : list byte :=
  match n with
  | O => []
  | S n' => byte_of_Z (v mod 256) :: le_split n' (v / 256)
  end.

(** The bytes of a run of items, eight per item, as [ndarray.tobytes()]
    lays them out. *)
Definition tobytes_items (vs : list Z) : list byte :=
  concat (map (le_split 8) vs).

(** The items [np.fromfile(file, dtype=np.float64)] reads: one per complete
    group of eight bytes; a trailing incomplete group is ignored. *)
Fixpoint fromfile_items (bs : list byte) : list float64 :=
  match bs with
  | b0 :: b1 :: b2 :: b3 :: b4 :: b5 :: b6 :: b7 :: rest =>
      le_combine [b0; b1; b2; b3; b4; b5; b6; b7] :: fromfile_items rest
  | _ => []
  end.

(** A C-contiguous array: its shape and its flat buffer. *)
Record ndarray : Type := mk_ndarray { shape : list nat; buffer : list float64 }.

(** [a.size] *)
Definition size (a : ndarray) : Z := Z.of_nat (foldr Nat.mul 1 (shape a)).

(** [np.array([])] *)
Definition array_empty : ndarray := mk_ndarray [0] [].

Definition fromfile (bs : list byte) : ndarray :=
  let items := fromfile_items bs in mk_ndarray [length items] items.

(** NumPy's [_fix_unknown_dimension]: every negative entry of the requested
    shape is an unknown dimension, at most one is allowed, and the known
    dimensions are multiplied up. *)
Fixpoint scan_dims (dims : list Z) (seen_unknown : bool) (s_known : Z)
  : outcome (bool * Z) :=
  match dims with
  | [] => Return (seen_unknown, s_known)
  | d :: dims' =>
      if (d <? 0)%Z then
        if seen_unknown
        then Raise (ValueError "can only specify one unknown dimension")
        else scan_dims dims' true s_known
      else scan_dims dims' seen_unknown (s_known * d)%Z
  end.

Fixpoint skip_newaxis (dims : list Z) : list Z :=
  match dims with
  | d :: dims' => if (d <? 0)%Z then skip_newaxis dims' else dims
  | [] => []
  end.

(** The shape as NumPy prints it in the size-mismatch message. *)
Definition shape_to_string (dims : list Z) : string :=
  match skip_newaxis dims with
  | [] => "()"
  | d :: ds =>
      let body :=
        foldl (fun acc x =>
                 acc +:+ (if (x <? 0)%Z then ",newaxis" else "," +:+ pretty x))
              (pretty d) ds in
      if (length dims =? 1)%nat then "(" +:+ body +:+ ",)" else "(" +:+ body +:+ ")"
  end.

Definition reshape_size_mismatch (a : ndarray) (dims : list Z) : exn :=
  ValueError ("cannot reshape array of size " +:+ pretty (size a)
              +:+ " into shape " +:+ shape_to_string dims).

(** [a.reshape(d0, d1, ...)] *)
Definition reshape (a : ndarray) (dims : list Z) : py ndarray :=
  match scan_dims dims false 1 with
  | Raise e => raise e
  | Return (true, s_known) =>
      if ((s_known =? 0) || negb (size a mod s_known =? 0))%Z%bool
      then raise (reshape_size_mismatch a dims)
      else
        let unknown := (size a / s_known)%Z in
        mret (mk_ndarray
                (map (fun d => Z.to_nat (if (d <? 0)%Z then unknown else d)) dims)
                (buffer a))
  | Return (false, s_known) =>
      if (size a =? s_known)%Z
      then mret (mk_ndarray (map Z.to_nat dims) (buffer a))
      else raise (reshape_size_mismatch a dims)
  end.

(** Row-major (C order) strides, in items. *)
Fixpoint strides (shp : list nat) : list nat :=
  match shp with
  | [] => []
  | _ :: shp' => foldr Nat.mul 1 shp' :: strides shp'
  end.

Fixpoint offset (shp strd idx : list nat) : option nat :=
  match shp, strd, idx with
  | [], [], [] => Some 0
  | n :: shp', s :: strd', i :: idx' =>
      if (i <? n)%nat
      then o ← offset shp' strd' idx'; Some (i * s + o)
      else None
  | _, _, _ => None
  end.

(** [a[i0, i1, ...]] with one non-negative index per axis; [None] stands for
    [IndexError]. *)
Definition item (a : ndarray) (idx : list nat) : option float64 :=
  o ← offset (shape a) (strides (shape a)) idx; buffer a !! o.

(** [a.shape[0]] *)
Definition shape0 (a : ndarray) : nat := hd 0 (shape a).

(** A frame: rows of columns. *)
Definition grid := list (list float64).

(** [a[frame_no, :, :]] as nested lists; [None] stands for [IndexError]
    (the array is not three-dimensional, or [frame_no] is out of range). *)
Definition frame (a : ndarray) (frame_no : nat) : option grid :=
  match shape a with
  | [k; h; w] =>
      if (frame_no <? k)%nat
      then Some (map (fun r => take w (drop (frame_no * (h * w) + r * w) (buffer a)))
                     (seq 0 h))
      else None
  | _ => None
  end.

(** The frames a consumer sees when it walks [range(a.shape[0])] and takes
    [a[frame_no, :, :]] each time ([create_heatmap] does exactly this). *)
Definition frames (a : ndarray) : option (list grid) :=
  mapM (frame a) (seq 0 (shape0 a)).

End Np.

Import Os Np.

(* ================================================================== *)
(** ** [utilities.py] *)
(* ================================================================== *)

Module Utilities.

Definition DEFAULT_FRAME_WIDTH : Z := 80.
Definition DEFAULT_FRAME_HEIGHT : Z := 60.
Definition INPUT_FOLDER : string := "input".
Definition OUTPUT_FOLDER : string := "output".

(** The builtin [exit(code)]. *)
Definition exit {A} (code : Z) : py A := raise (SystemExit code).

Section OnSnapshot.
Variable fs : filesystem.
(** [os.path.dirname(__file__)] *)
Variable module_dir : string.

(** The [for file_name in os.listdir(data_abs_path)] loop. *)
Fixpoint scan_entries (data_abs_path : string) (entries file_names : list string)
  : py (list string) :=
  match entries with
  | [] => mret file_names
  | file_name :: rest =>
      let abs_file_path := join data_abs_path file_name in
      if negb (isfile fs abs_file_path) then
        print ("Could not load file " +:+ abs_file_path
               +:+ " because it does not exist");;
        scan_entries data_abs_path rest file_names
      else if negb (bool_decide ((splitext file_name).2 = ".bin")) then
        print ("Skipping file " +:+ file_name
               +:+ " because it doesn't have the correct file type");;
        scan_entries data_abs_path rest file_names
      else
        scan_entries data_abs_path rest (file_names ++ [abs_file_path])%list
  end.

Definition load_input_file_paths (input_data_dir : string) : py (list string) :=
  let data_abs_path :=
    if isabs input_data_dir then join module_dir input_data_dir
    else input_data_dir in
  (if negb (exists_ fs data_abs_path) then
     print ("Directory " +:+ data_abs_path +:+ " does not exist");;
     exit 1
   else mret tt);;
  entries ← listdir fs data_abs_path;
  file_names ← scan_entries data_abs_path entries [];
  (if (length file_names =? 0)%nat then
     print ("Input directory " +:+ data_abs_path +:+ " is empty");;
     exit 1
   else mret tt);;
  mret file_names.

(** The [try] block of [load_depth_data_frames] either leaves [data]
    bound ([Some data]) or returns [np.array([])] from the handler
    ([None]). *)
Definition read_data (file_name : string) : py (option ndarray) :=
  try_except
    (content ← open_rb fs file_name; mret (Some (fromfile content)))
    (fun e =>
       match e with
       | FileNotFoundError _ => Some (print (str_exn e);; mret None)
       | _ => None
       end).

Definition load_depth_data_frames (file_name : string) (width height : Z)
  : py ndarray :=
  r ← read_data file_name;
  match r with
  | None => mret array_empty
  | Some data =>
      m ← int_mod (size data) (width * height);
      if negb (m =? 0)%Z then
        raise (ValueError ("Incorrect frame size " +:+ pretty width
                           +:+ " x " +:+ pretty height))
      else reshape data [(-1)%Z; height; width]
  end.

(** The [for file_name in file_names] loop, threading [data_sets]. *)
Fixpoint load_loop (file_names : list string) (width height : Z)
  (data_sets : dict ndarray) : py (dict ndarray) :=
  match file_names with
  | [] => mret data_sets
  | file_name :: rest =>
      data_sets' ←
        try_except
          (a ← load_depth_data_frames file_name width height;
           mret (dict_set data_sets file_name a))
          (fun e =>
             match e with
             | ValueError _ =>
                 Some (print (file_name +:+ ": " +:+ str_exn e);; mret data_sets)
             | _ => None
             end);
      load_loop rest width height data_sets'
  end.

Definition load_depth_data_sets (file_names : list string) (width height : Z)
  : py (dict ndarray) :=
  load_loop file_names width height [].

End OnSnapshot.

(** [create_heatmap]: only its frame loop is modelled, the walk over
    [range(data_array.shape[0])] with [data_array[frame_no, :, :]] taken at
    each step; each [plt.savefig] is one [SaveFig] event.  The call of
    [os.makedirs] before the loop and the plotting calls inside it are left
    out: they can raise in the program (an output path that is a regular
    file, a full disk), so a [Return] here says that the indexing raised
    nothing, not that the figures were written. *)
Fixpoint heatmap_loop (data_array : ndarray) (data_set_path : string)
  (frame_nos : list nat) : py unit :=
  match frame_nos with
  | [] => mret tt
  | frame_no :: rest =>
      match frame data_array frame_no with
      | None => raise IndexError
      | Some _ =>
          emit (SaveFig data_set_path frame_no);;
          heatmap_loop data_array data_set_path rest
      end
  end.

Definition create_heatmap (data_array : ndarray) (data_set_path : string) : py unit :=
  heatmap_loop data_array data_set_path (seq 0 (shape0 data_array)).

End Utilities.

Import Utilities.

(* ================================================================== *)
(** ** [script.py] *)
(* ================================================================== *)

Module Script.

Fixpoint render_all (items : dict ndarray) : py unit :=
  match items with
  | [] => mret tt
  | (data_set_path, frames) :: rest =>
      create_heatmap frames data_set_path;;
      render_all rest
  end.

Definition script (fs : filesystem) (module_dir : string) : py unit :=
  input_file_paths ← load_input_file_paths fs module_dir INPUT_FOLDER;
  data_sets ← load_depth_data_sets fs input_file_paths
                 DEFAULT_FRAME_WIDTH DEFAULT_FRAME_HEIGHT;
  print ("Creating heatmaps for " +:+ pretty (length data_sets) +:+ " datasets");;
  render_all data_sets.

End Script.

Import Script.

(* ================================================================== *)
(** ** Test data *)
(* ================================================================== *)

Module Fixtures.

(** The bit pattern of [float(n)] (IEEE-754 binary64), for [n < 2^53]. *)
Definition float64_of_nat (n : nat) : float64 :=
  match n with
  | O => 0%Z
  | _ =>
      let z := Z.of_nat n in
      let e := Z.log2 z in
      ((1023 + e) * 2 ^ 52 + (z - 2 ^ e) * 2 ^ (52 - e))%Z
  end.

(** The bytes of a file holding [float(0), float(1), ..., float(n - 1)]. *)
Definition ramp (n : nat) : list byte :=
  tobytes_items (map float64_of_nat (seq 0 n)).

Definition on_disk (files : list (string * node)) : filesystem :=
  fun p => dict_get files p.

Definition disk : filesystem :=
  on_disk
    [ ("input", Dir ["a.bin"; "notes.txt"; "b.bin"; "c.bin"]);
      ("input/a.bin", File true (ramp 12));
      ("input/notes.txt", File true []);
      ("input/b.bin", File true (ramp 13));
      ("input/c.bin", File true (ramp 24));
      ("spare", Dir ["notes.txt"; "sub"; ".bin"]);
      ("spare/notes.txt", File true []);
      ("spare/sub", Dir []);
      ("spare/.bin", File true (ramp 12));
      ("empty.bin", File true []);
      ("locked.bin", File false (ramp 12)) ].

End Fixtures.

Import Fixtures.

(* ================================================================== *)
(** ** Vocabulary of the statements *)
(* ================================================================== *)

Module Vocabulary.

(** What one call of the decoder returns or raises, and what it adds to the
    trace; neither depends on the trace the call starts from
    ([decode_trace_uniform] below). *)
Definition decode_outcome (fs : filesystem) (f : string) (width height : Z)
  : outcome ndarray :=
  (load_depth_data_frames fs f width height []).1.

Definition decode_events (fs : filesystem) (f : string) (width height : Z)
  : trace :=
  (load_depth_data_frames fs f width height []).2.

(** A source is excluded from the batch result when its decode raises
    [ValueError]. *)
Definition excluded (fs : filesystem) (width height : Z) (f : string) : bool :=
  match decode_outcome fs f width height with
  | Raise (ValueError _) => true
  | _ => false
  end.

Definition decoded (fs : filesystem) (width height : Z) (f : string)
  : option ndarray :=
  match decode_outcome fs f width height with
  | Return a => Some a
  | Raise _ => None
  end.

(** The key order of an insertion-ordered mapping after assigning to [k]. *)
Definition push_key (ks : list string) (k : string) : list string :=
  if bool_decide (k ∈ ks) then ks else (ks ++ [k])%list.

(** Rows [0 .. h-1] of frame [i] cut out of a flat row-major buffer. *)
Definition rows_at {A} (buf : list A) (h w i : nat) : list (list A) :=
  map (fun r => take w (drop (i * (h * w) + r * w) buf)) (seq 0 h).

(** The value at row [r], column [c] of frame [i] of a frame sequence. *)
Definition cell (fr : list grid) (i r c : nat) : option float64 :=
  g ← fr !! i; row ← g !! r; row !! c.

Definition is_print (ev : event) : bool :=
  match ev with Print _ => true | _ => false end.

(** An entry of a directory that the scan keeps: a regular file whose
    extension, as [os.path.splitext] sees it, is [.bin]. *)
Definition bin_file (fs : filesystem) (dir entry : string) : bool :=
  isfile fs (join dir entry) && bool_decide ((splitext entry).2 = ".bin").

End Vocabulary.

Import Vocabulary.

(* ================================================================== *)
(** ** What a run leaves in the trace *)
(* ================================================================== *)

Module Observations.

(** The paths handed to [open], in the order of the calls. *)
Fixpoint opened (t : trace) : list string :=
  match t with
  | [] => []
  | Open p :: t' => p :: opened t'
  | _ :: t' => opened t'
  end.

(** The figures saved, in the order of the calls. *)
Fixpoint saved (t : trace) : list (string * nat) :=
  match t with
  | [] => []
  | SaveFig p i :: t' => (p, i) :: saved t'
  | _ :: t' => saved t'
  end.

(** What the directory scan prints for one entry: a line for an entry it
    does not keep, nothing for one it keeps. *)
Definition scan_diagnostic (fs : filesystem) (dir file_name : string) : trace :=
  if negb (isfile fs (join dir file_name)) then
    [Print ("Could not load file " +:+ join dir file_name
            +:+ " because it does not exist")]
  else if negb (bool_decide ((splitext file_name).2 = ".bin")) then
    [Print ("Skipping file " +:+ file_name
            +:+ " because it doesn't have the correct file type")]
  else [].

(** An outcome of the decoder that the batch loop survives: a returned
    array, or a [ValueError]. *)
Definition survivable (o : outcome ndarray) : bool :=
  match o with
  | Return _ => true
  | Raise (ValueError _) => true
  | Raise _ => false
  end.

(** What one turn of the batch loop adds to the trace: the events of the
    decoder, then the line for a [ValueError]. *)
Definition source_events (fs : filesystem) (width height : Z) (f : string)
  : trace :=
  (decode_events fs f width height
   ++ match decode_outcome fs f width height with
      | Raise (ValueError msg) => [Print (f +:+ ": " +:+ msg)]
      | _ => []
      end)%list.

(** The figures of one data set: one per index in [range(a.shape[0])]. *)
Definition figures (pa : string * ndarray) : trace :=
  map (SaveFig pa.1) (seq 0 (shape0 pa.2)).

(** Every index in [range(a.shape[0])] is a valid first index of [a]. *)
Definition renderable (a : ndarray) : Prop :=
  forall i, i < shape0 a -> is_Some (frame a i).

(** A second test disk: an input directory with a file that cannot be
    opened. *)
Definition guarded_disk : filesystem :=
  on_disk
    [ ("input", Dir ["a.bin"; "l.bin"; "z.bin"]);
      ("input/a.bin", File true []);
      ("input/l.bin", File false []);
      ("input/z.bin", File true []);
      ("short.bin", File true (ramp 12));
      ("long.bin", File true (ramp 12 ++ [x01; x02; x03])%list) ].

(** A third test disk: an input directory with one file of a whole frame
    of 80 x 60 values (all of them 0.0) and one file that does not fit. *)
Definition frame_disk : filesystem :=
  on_disk
    [ ("input", Dir ["one.bin"; "two.bin"]);
      ("input/one.bin", File true (replicate (8 * (80 * 60)) x00));
      ("input/two.bin", File true (ramp 12)) ].

End Observations.

Import Observations.

(* ================================================================== *)
(** ** Facts about the NumPy model *)
(* ================================================================== *)

Section NumpyFacts.

Lemma length_fromfile_items_lt (n : nat) :
  forall bs : list byte,
    length bs < n -> length (fromfile_items bs) = length bs / 8.
Proof.
  induction n as [|n IH]; intros bs Hn; [lia|].
  do 8 (destruct bs as [|? bs]; [reflexivity|]).
  cbn [fromfile_items length] in *.
  rewrite IH by lia.
  change (S (S (S (S (S (S (S (S (length bs)))))))))
    with (1 * 8 + length bs).
  rewrite Nat.div_add_l by lia. reflexivity.
Qed.

Lemma length_fromfile_items (bs : list byte) :
  length (fromfile_items bs) = length bs / 8.
Proof. apply (length_fromfile_items_lt (S (length bs))). lia. Qed.

Lemma le_split_combine (bs : list byte) :
  le_split (length bs) (le_combine bs) = bs.
Proof.
  induction bs as [|b bs IH]; [reflexivity|].
  cbn [length le_split le_combine].
  pose proof (Byte.to_N_bounded b) as Hb.
  assert (0 <= Z.of_N (Byte.to_N b) < 256)%Z as Hb' by lia.
  rewrite (Z.mul_comm 256).
  rewrite Z.mod_add, Z.div_add, Z.mod_small, Z.div_small, Z.add_0_l by lia.
  rewrite IH. unfold byte_of_Z. now rewrite N2Z.id, Byte.of_to_N.
Qed.

(** Writing the items back out gives the bytes that were read, when these
    are whole groups of eight. *)
Lemma tobytes_fromfile_lt (n : nat) :
  forall bs : list byte,
    length bs < n -> length bs mod 8 = 0 ->
    tobytes_items (fromfile_items bs) = bs.
Proof.
  induction n as [|n IH]; intros bs Hn Hmod; [lia|].
  destruct bs as [|b0 bs]; [reflexivity|].
  do 7 (destruct bs as [|? bs]; [discriminate Hmod|]).
  cbn [fromfile_items]. unfold tobytes_items in *. cbn [map concat].
  rewrite IH.
  - now rewrite (le_split_combine [b0; _; _; _; _; _; _; _]).
  - cbn [length] in Hn. lia.
  - cbn [length] in Hmod.
    replace (S (S (S (S (S (S (S (S (length bs)))))))))
      with (length bs + 1 * 8) in Hmod by lia.
    now rewrite Nat.Div0.mod_add in Hmod.
Qed.

Lemma tobytes_fromfile (bs : list byte) :
  length bs mod 8 = 0 -> tobytes_items (fromfile_items bs) = bs.
Proof. apply (tobytes_fromfile_lt (S (length bs))). lia. Qed.

Lemma size_fromfile (bs : list byte) :
  size (fromfile bs) = Z.of_nat (length bs / 8).
Proof.
  unfold size, fromfile. cbn [shape foldr].
  rewrite Nat.mul_1_r, length_fromfile_items. reflexivity.
Qed.

(** [reshape(-1, h, w)] of [n] items, for positive [h], [w] with [w * h]
    dividing [n]. *)
Lemma reshape_frames (a : ndarray) (w h : nat) (t : trace) :
  0 < w -> 0 < h ->
  (size a mod (Z.of_nat w * Z.of_nat h) = 0)%Z ->
  reshape a [(-1)%Z; Z.of_nat h; Z.of_nat w] t
  = (Return (mk_ndarray [Z.to_nat (size a / (Z.of_nat w * Z.of_nat h)); h; w]
                        (buffer a)), t).
Proof.
  intros Hw Hh Hmod. unfold reshape. cbn [scan_dims].
  change (-1 <? 0)%Z with true. cbn iota.
  destruct (Z.ltb_spec (Z.of_nat h) 0) as [?|_]; [lia|].
  destruct (Z.ltb_spec (Z.of_nat w) 0) as [?|_]; [lia|].
  replace (1 * Z.of_nat h * Z.of_nat w)%Z with (Z.of_nat w * Z.of_nat h)%Z by lia.
  destruct (Z.eqb_spec (Z.of_nat w * Z.of_nat h) 0) as [?|_]; [nia|].
  rewrite Hmod. cbn [orb negb Z.eqb map].
  change (-1 <? 0)%Z with true.
  destruct (Z.ltb_spec (Z.of_nat h) 0) as [?|_]; [lia|].
  destruct (Z.ltb_spec (Z.of_nat w) 0) as [?|_]; [lia|].
  rewrite !Nat2Z.id. reflexivity.
Qed.

Lemma mapM_pointwise {A B} (f : A -> option B) (g : A -> B) (l : list A) :
  (forall x, x ∈ l -> f x = Some (g x)) -> mapM f l = Some (map g l).
Proof.
  intros Hfg. apply mapM_Some_2.
  induction l as [|x l IH]; cbn [map]; constructor.
  - apply Hfg. left.
  - apply IH. intros y Hy. apply Hfg. now right.
Qed.

(** Consecutive rows of width [w] starting at offset [o] are the slice of
    [h * w] items starting at [o]. *)
Lemma concat_rows {A} (buf : list A) (w o h : nat) :
  concat (map (fun r => take w (drop (o + r * w) buf)) (seq 0 h))
  = take (h * w) (drop o buf).
Proof.
  induction h as [|h IH]; [reflexivity|].
  rewrite seq_S, map_app, concat_app, IH. cbn [map concat Nat.add].
  rewrite app_nil_r, <- drop_drop, take_take_drop.
  f_equal. lia.
Qed.

Lemma lookup_row {A} (buf : list A) (w o c : nat) :
  c < w -> take w (drop o buf) !! c = buf !! (o + c).
Proof. intros Hc. now rewrite lookup_take_lt, lookup_drop. Qed.

Lemma length_row {A} (buf : list A) (w o : nat) :
  o + w <= length buf -> length (take w (drop o buf)) = w.
Proof. intros Hlen. rewrite length_take, length_drop. lia. Qed.

Variables (k h w : nat) (buf : list float64).

Lemma frame_rows (i : nat) :
  i < k -> frame (mk_ndarray [k; h; w] buf) i = Some (rows_at buf h w i).
Proof.
  intros Hi. unfold frame. cbn [shape].
  destruct (Nat.ltb_spec i k); [reflexivity | lia].
Qed.

Lemma frame_out_of_range (i : nat) :
  k <= i -> frame (mk_ndarray [k; h; w] buf) i = None.
Proof.
  intros Hi. unfold frame. cbn [shape].
  destruct (Nat.ltb_spec i k); [lia | reflexivity].
Qed.

Lemma frames_rows :
  frames (mk_ndarray [k; h; w] buf) = Some (map (rows_at buf h w) (seq 0 k)).
Proof.
  unfold frames, shape0. cbn [shape hd].
  apply mapM_pointwise. intros i Hi.
  apply frame_rows. apply elem_of_seq in Hi. lia.
Qed.

Lemma item_row_major (i r c : nat) :
  i < k -> r < h -> c < w ->
  item (mk_ndarray [k; h; w] buf) [i; r; c] = buf !! (i * (h * w) + r * w + c).
Proof.
  intros Hi Hr Hc. unfold item. cbn [shape buffer strides offset foldr].
  destruct (Nat.ltb_spec i k); [|lia].
  destruct (Nat.ltb_spec r h); [|lia].
  destruct (Nat.ltb_spec c w); [|lia].
  cbn. f_equal. lia.
Qed.

End NumpyFacts.

(* ================================================================== *)
(** ** Facts about the frame decoder *)
(* ================================================================== *)

Section DecoderFacts.

Variable fs : filesystem.

Lemma bind_return {A B} (m : py A) (k : A -> py B) (t t' : trace) (a : A) :
  m t = (Return a, t') -> (m ≫= k) t = k a t'.
Proof. intros Hm. unfold mbind, py_bind. now rewrite Hm. Qed.

Lemma bind_raise {A B} (m : py A) (k : A -> py B) (t t' : trace) (e : exn) :
  m t = (Raise e, t') -> (m ≫= k) t = (Raise e, t').
Proof. intros Hm. unfold mbind, py_bind. now rewrite Hm. Qed.

Lemma read_data_readable (f : string) (bs : list byte) (t : trace) :
  fs f = Some (File true bs) ->
  read_data fs f t = (Return (Some (fromfile bs)), t ++ [Open f])%list.
Proof.
  intros Hf. unfold read_data, try_except, open_rb, emit, mbind, py_bind.
  now rewrite Hf.
Qed.

Lemma read_data_missing (f : string) (t : trace) :
  fs f = None ->
  read_data fs f t
  = (Return None,
     t ++ [Open f; Print (str_exn (FileNotFoundError f))])%list.
Proof.
  intros Hf. unfold read_data, try_except, open_rb, print, emit, mbind, py_bind.
  rewrite Hf. cbn. now rewrite <- app_assoc.
Qed.

Lemma read_data_locked (f : string) (bs : list byte) (t : trace) :
  fs f = Some (File false bs) ->
  read_data fs f t = (Raise (PermissionError f), t ++ [Open f])%list.
Proof.
  intros Hf. unfold read_data, try_except, open_rb, emit, mbind, py_bind.
  now rewrite Hf.
Qed.

Lemma read_data_directory (f : string) (es : list string) (t : trace) :
  fs f = Some (Dir es) ->
  read_data fs f t = (Raise (IsADirectoryError f), t ++ [Open f])%list.
Proof.
  intros Hf. unfold read_data, try_except, open_rb, emit, mbind, py_bind.
  now rewrite Hf.
Qed.

Lemma size_mod_frame (bs : list byte) (w h : nat) :
  (size (fromfile bs) mod (Z.of_nat w * Z.of_nat h))%Z
  = Z.of_nat ((length bs / 8) mod (w * h)).
Proof. now rewrite size_fromfile, <- Nat2Z.inj_mul, Nat2Z.inj_mod. Qed.

Lemma size_div_frame (bs : list byte) (w h : nat) :
  Z.to_nat (size (fromfile bs) / (Z.of_nat w * Z.of_nat h))
  = (length bs / 8) / (w * h).
Proof.
  now rewrite size_fromfile, <- Nat2Z.inj_mul, <- Nat2Z.inj_div, Nat2Z.id.
Qed.

(** The decoder on a readable file whose item count is a multiple of the
    frame size. *)
Lemma decode_divisible (f : string) (bs : list byte) (w h : nat) (t : trace) :
  fs f = Some (File true bs) ->
  0 < w -> 0 < h ->
  (length bs / 8) mod (w * h) = 0 ->
  load_depth_data_frames fs f (Z.of_nat w) (Z.of_nat h) t
  = (Return (mk_ndarray [(length bs / 8) / (w * h); h; w] (fromfile_items bs)),
     t ++ [Open f])%list.
Proof.
  intros Hf Hw Hh Hmod. unfold load_depth_data_frames.
  rewrite (bind_return _ _ _ _ _ (read_data_readable f bs t Hf)).
  unfold int_mod.
  destruct (Z.eqb_spec (Z.of_nat w * Z.of_nat h) 0) as [?|_]; [nia|].
  unfold mbind at 1, py_bind, mret at 1, py_ret.
  rewrite size_mod_frame, Hmod. change (negb (Z.of_nat 0 =? 0)%Z) with false.
  cbn iota. rewrite reshape_frames; try assumption.
  - now rewrite size_div_frame.
  - now rewrite size_mod_frame, Hmod.
Qed.

(** The decoder on a readable file whose item count is not a multiple of
    the frame size. *)
Lemma decode_mismatch (f : string) (bs : list byte) (w h : nat) (t : trace) :
  fs f = Some (File true bs) ->
  0 < w -> 0 < h ->
  (length bs / 8) mod (w * h) <> 0 ->
  load_depth_data_frames fs f (Z.of_nat w) (Z.of_nat h) t
  = (Raise (ValueError ("Incorrect frame size " +:+ pretty (Z.of_nat w)
                        +:+ " x " +:+ pretty (Z.of_nat h))),
     t ++ [Open f])%list.
Proof.
  intros Hf Hw Hh Hmod. unfold load_depth_data_frames.
  rewrite (bind_return _ _ _ _ _ (read_data_readable f bs t Hf)).
  unfold int_mod.
  destruct (Z.eqb_spec (Z.of_nat w * Z.of_nat h) 0) as [?|_]; [nia|].
  unfold mbind at 1, py_bind, mret at 1, py_ret.
  rewrite size_mod_frame.
  destruct (Z.eqb_spec (Z.of_nat ((length bs / 8) mod (w * h))) 0) as [?|_];
    [lia|].
  reflexivity.
Qed.

Lemma decode_missing (f : string) (width height : Z) (t : trace) :
  fs f = None ->
  load_depth_data_frames fs f width height t
  = (Return array_empty,
     t ++ [Open f; Print (str_exn (FileNotFoundError f))])%list.
Proof.
  intros Hf. unfold load_depth_data_frames.
  now rewrite (bind_return _ _ _ _ _ (read_data_missing f t Hf)).
Qed.

Lemma decode_locked (f : string) (bs : list byte) (width height : Z) (t : trace) :
  fs f = Some (File false bs) ->
  load_depth_data_frames fs f width height t
  = (Raise (PermissionError f), t ++ [Open f])%list.
Proof.
  intros Hf. unfold load_depth_data_frames.
  now rewrite (bind_raise _ _ _ _ _ (read_data_locked f bs t Hf)).
Qed.

End DecoderFacts.

(* ================================================================== *)
(** ** Facts about the batch loader *)
(* ================================================================== *)

Section BatchFacts.

Variable fs : filesystem.
Variables width height : Z.

Lemma reshape_trace_uniform (a : ndarray) (dims : list Z) (t : trace) :
  reshape a dims t = ((reshape a dims []).1, t).
Proof.
  unfold reshape.
  destruct (scan_dims dims false 1) as [[[] s]|e]; try reflexivity.
  - destruct ((s =? 0)%Z || negb (size a mod s =? 0)%Z); reflexivity.
  - destruct (size a =? s)%Z; reflexivity.
Qed.

Lemma decode_trace_uniform (f : string) (t : trace) :
  load_depth_data_frames fs f width height t
  = (decode_outcome fs f width height,
     t ++ decode_events fs f width height)%list.
Proof.
  unfold decode_outcome, decode_events.
  destruct (fs f) as [[[] bs|es]|] eqn:Hf.
  - unfold load_depth_data_frames.
    rewrite !(bind_return _ _ _ _ _ (read_data_readable fs f bs _ Hf)).
    unfold int_mod. destruct (width * height =? 0)%Z; [reflexivity|].
    unfold mbind, py_bind, mret, py_ret.
    destruct (negb (size (fromfile bs) mod (width * height) =? 0)%Z);
      [reflexivity|].
    now rewrite reshape_trace_uniform, (reshape_trace_uniform _ _ (_ ++ _)%list).
  - now rewrite !(decode_locked fs f bs _ _ _ Hf).
  - unfold load_depth_data_frames.
    now rewrite !(bind_raise _ _ _ _ _ (read_data_directory fs f es _ Hf)).
  - now rewrite !(decode_missing fs f _ _ _ Hf).
Qed.

(** One turn of the loop of [load_depth_data_sets]. *)
Lemma load_loop_step (f : string) (rest : list string) (d : dict ndarray)
  (t : trace) :
  load_loop fs (f :: rest) width height d t
  = match decode_outcome fs f width height with
    | Return a =>
        load_loop fs rest width height (dict_set d f a)
          (t ++ decode_events fs f width height)%list
    | Raise (ValueError msg) =>
        load_loop fs rest width height d
          (t ++ decode_events fs f width height
             ++ [Print (f +:+ ": " +:+ msg)])%list
    | Raise e => (Raise e, (t ++ decode_events fs f width height)%list)
    end.
Proof.
  cbn [load_loop]. unfold mbind at 1, py_bind, try_except.
  unfold mbind at 1, py_bind. rewrite decode_trace_uniform.
  destruct (decode_outcome fs f width height) as [a|[]]; try reflexivity.
  cbn. unfold print, emit, mbind, py_bind, mret, py_ret.
  now rewrite <- app_assoc.
Qed.

Lemma dict_get_set {V} (d : dict V) (k k' : string) (v : V) :
  dict_get (dict_set d k v) k'
  = if bool_decide (k = k') then Some v else dict_get d k'.
Proof.
  induction d as [|[k0 v0] d IH]; cbn [dict_set dict_get].
  - reflexivity.
  - destruct (bool_decide_reflect (k0 = k)) as [->|Hk0]; cbn [dict_get].
    + destruct (bool_decide_reflect (k = k')); reflexivity.
    + destruct (bool_decide_reflect (k0 = k')) as [->|?].
      * destruct (bool_decide_reflect (k = k')); congruence.
      * exact IH.
Qed.

Lemma keys_dict_set {V} (d : dict V) (k : string) (v : V) :
  keys (dict_set d k v) = push_key (keys d) k.
Proof.
  unfold push_key, keys.
  induction d as [|[k0 v0] d IH]; cbn [dict_set map fst].
  - rewrite bool_decide_eq_false_2; [reflexivity | apply not_elem_of_nil].
  - destruct (bool_decide_reflect (k0 = k)) as [->|Hk0]; cbn [map fst].
    + rewrite bool_decide_eq_true_2; [reflexivity | left].
    + rewrite IH. destruct (bool_decide_reflect (k ∈ map fst d)) as [Hin|Hin].
      * rewrite bool_decide_eq_true_2; [reflexivity | now right].
      * rewrite bool_decide_eq_false_2; [reflexivity|].
        intros [?|?]%elem_of_cons; congruence.
Qed.

Lemma dict_get_keys {V} (d : dict V) (k : string) :
  k ∈ keys d <-> is_Some (dict_get d k).
Proof.
  unfold keys. induction d as [|[k0 v0] d IH]; cbn [dict_get map fst].
  - split; [intros []%elem_of_nil | intros [? [=]]].
  - rewrite elem_of_cons.
    destruct (bool_decide_reflect (k0 = k)) as [->|Hk0].
    + split; [eauto | now left].
    + rewrite <- IH. split; [intros [?|?]; congruence | now right].
Qed.

Lemma load_loop_get (names : list string) :
  forall (d : dict ndarray) (t : trace) (m : dict ndarray) (t' : trace),
    load_loop fs names width height d t = (Return m, t') ->
    forall f,
      dict_get m f
      = match (if bool_decide (f ∈ names) then decoded fs width height f
               else None) with
        | Some a => Some a
        | None => dict_get d f
        end.
Proof.
  induction names as [|f0 rest IH]; intros d t m t' Hrun f.
  - cbn in Hrun. injection Hrun as <- _. reflexivity.
  - rewrite load_loop_step in Hrun.
    destruct (decode_outcome fs f0 width height) as [a|e] eqn:Hout.
    + rewrite (IH _ _ _ _ Hrun f), dict_get_set.
      destruct (bool_decide_reflect (f0 = f)) as [<-|Hne].
      * rewrite (bool_decide_eq_true_2 (f0 ∈ f0 :: rest)) by left.
        unfold decoded. rewrite Hout.
        destruct (bool_decide (f0 ∈ rest)); reflexivity.
      * destruct (bool_decide_reflect (f ∈ rest)) as [Hin|Hin].
        -- rewrite bool_decide_eq_true_2 by now right. reflexivity.
        -- rewrite bool_decide_eq_false_2; [reflexivity|].
           intros [?|?]%elem_of_cons; congruence.
    + destruct e; try discriminate Hrun.
      rewrite (IH _ _ _ _ Hrun f).
      destruct (bool_decide_reflect (f0 = f)) as [<-|Hne].
      * rewrite (bool_decide_eq_true_2 (f0 ∈ f0 :: rest)) by left.
        unfold decoded. rewrite Hout.
        destruct (bool_decide (f0 ∈ rest)); reflexivity.
      * destruct (bool_decide_reflect (f ∈ rest)) as [Hin|Hin].
        -- rewrite bool_decide_eq_true_2 by now right. reflexivity.
        -- rewrite bool_decide_eq_false_2; [reflexivity|].
           intros [?|?]%elem_of_cons; congruence.
Qed.

(** A batch that returns met no exception other than [ValueError]. *)
Lemma load_loop_outcomes (names : list string) :
  forall (d : dict ndarray) (t : trace) (m : dict ndarray) (t' : trace),
    load_loop fs names width height d t = (Return m, t') ->
    forall f, f ∈ names ->
      (exists a, decode_outcome fs f width height = Return a)
      \/ (exists msg, decode_outcome fs f width height = Raise (ValueError msg)).
Proof.
  induction names as [|f0 rest IH]; intros d t m t' Hrun f Hin.
  - now apply elem_of_nil in Hin.
  - rewrite load_loop_step in Hrun.
    apply elem_of_cons in Hin as [->|Hin].
    + destruct (decode_outcome fs f0 width height) as [a|[]];
        try discriminate Hrun; eauto.
    + destruct (decode_outcome fs f0 width height) as [a|[]];
        try discriminate Hrun; eapply IH; eauto.
Qed.

(** Conversely, the batch returns when every source decodes or raises
    [ValueError]. *)
Lemma load_loop_returns (names : list string) :
  forall (d : dict ndarray) (t : trace),
    (forall f, f ∈ names ->
       (exists a, decode_outcome fs f width height = Return a)
       \/ (exists msg, decode_outcome fs f width height = Raise (ValueError msg))) ->
    exists m t', load_loop fs names width height d t = (Return m, t').
Proof.
  induction names as [|f0 rest IH]; intros d t Hall.
  - cbn. eauto.
  - rewrite load_loop_step.
    destruct (Hall f0) as [[a ->]|[msg ->]]; [left| |];
      apply IH; intros f Hf; apply Hall; now right.
Qed.

Lemma load_loop_trace_grows (names : list string) :
  forall (d : dict ndarray) (t : trace) (o : outcome (dict ndarray)) (t' : trace),
    load_loop fs names width height d t = (o, t') ->
    exists evs, t' = (t ++ evs)%list.
Proof.
  induction names as [|f0 rest IH]; intros d t o t' Hrun.
  - cbn in Hrun. injection Hrun as _ <-. exists []. now rewrite app_nil_r.
  - rewrite load_loop_step in Hrun.
    destruct (decode_outcome fs f0 width height) as [a|[]];
      try (injection Hrun as _ <-; eauto; fail);
      apply IH in Hrun as [evs ->]; rewrite <- ?app_assoc; eauto.
Qed.

(** Every excluded source leaves a line naming it and its error. *)
Lemma load_loop_logged (names : list string) :
  forall (d : dict ndarray) (t : trace) (m : dict ndarray) (t' : trace),
    load_loop fs names width height d t = (Return m, t') ->
    forall f msg, f ∈ names ->
      decode_outcome fs f width height = Raise (ValueError msg) ->
      Print (f +:+ ": " +:+ msg) ∈ t'.
Proof.
  induction names as [|f0 rest IH]; intros d t m t' Hrun f msg Hin Hout.
  - now apply elem_of_nil in Hin.
  - rewrite load_loop_step in Hrun.
    apply elem_of_cons in Hin as [->|Hin].
    + rewrite Hout in Hrun.
      apply load_loop_trace_grows in Hrun as [evs ->].
      rewrite !elem_of_app, list_elem_of_singleton. auto.
    + destruct (decode_outcome fs f0 width height) as [a|[]];
        try discriminate Hrun; eapply IH; eauto.
Qed.

Lemma load_loop_keys (names : list string) :
  forall (d : dict ndarray) (t : trace) (m : dict ndarray) (t' : trace),
    load_loop fs names width height d t = (Return m, t') ->
    keys m
    = foldl push_key (keys d)
        (filter (fun f => excluded fs width height f = false) names).
Proof.
  induction names as [|f0 rest IH]; intros d t m t' Hrun.
  - cbn in Hrun. injection Hrun as <- _. reflexivity.
  - rewrite load_loop_step in Hrun. rewrite filter_cons.
    destruct (decode_outcome fs f0 width height) as [a|[]] eqn:Hout;
      try discriminate Hrun.
    + rewrite decide_True by (unfold excluded; now rewrite Hout).
      cbn [foldl]. rewrite <- (keys_dict_set d f0 a). eapply IH; eauto.
    + rewrite decide_False by (unfold excluded; now rewrite Hout).
      eapply IH; eauto.
Qed.

End BatchFacts.

(* ================================================================== *)
(** ** Facts about key order *)
(* ================================================================== *)

Section KeyOrder.

Lemma foldl_push_key (l : list string) :
  forall ks : list string,
    NoDup ks ->
    exists ext,
      foldl push_key ks l = (ks ++ ext)%list
      /\ sublist ext l
      /\ NoDup (ks ++ ext)
      /\ (forall x, x ∈ ext <-> x ∈ l /\ x ∉ ks).
Proof.
  induction l as [|x l IH]; intros ks Hks.
  - exists []. rewrite app_nil_r. split; [reflexivity|].
    split; [constructor|]. split; [assumption|].
    intros y. split; [intros []%elem_of_nil | intros [[]%elem_of_nil _]].
  - cbn [foldl]. unfold push_key at 2.
    destruct (bool_decide_reflect (x ∈ ks)) as [Hin|Hin].
    + destruct (IH ks Hks) as (ext & -> & Hsub & Hnd & Hmem).
      exists ext. split; [reflexivity|].
      split; [now apply sublist_cons|]. split; [assumption|].
      intros y. rewrite Hmem, elem_of_cons. split.
      * intros [? ?]. auto.
      * intros [[->|?] ?]; [contradiction | auto].
    + assert (NoDup (ks ++ [x])) as Hks'.
      { apply NoDup_app. split; [assumption|]. split; [|apply NoDup_singleton].
        intros y Hy ->%list_elem_of_singleton. contradiction. }
      destruct (IH _ Hks') as (ext & -> & Hsub & Hnd & Hmem).
      exists (x :: ext). rewrite <- app_assoc in *. cbn [app] in *.
      split; [reflexivity|]. split; [now apply sublist_skip|].
      split; [assumption|].
      intros y. rewrite !elem_of_cons, Hmem, not_elem_of_app,
        list_elem_of_singleton. split.
      * intros [->|(? & ? & ?)]; auto.
      * intros [[->|?] ?]; [auto|].
        destruct (decide (y = x)) as [->|?]; auto.
Qed.

Lemma foldl_push_key_fresh (l : list string) :
  forall ks : list string,
    NoDup l -> (forall x, x ∈ l -> x ∉ ks) ->
    foldl push_key ks l = (ks ++ l)%list.
Proof.
  induction l as [|x l IH]; intros ks Hl Hfresh.
  - now rewrite app_nil_r.
  - cbn [foldl]. unfold push_key at 2.
    apply NoDup_cons in Hl as [Hx Hl].
    rewrite bool_decide_eq_false_2 by (apply Hfresh; left).
    rewrite IH, <- app_assoc; [reflexivity | assumption |].
    intros y Hy. rewrite not_elem_of_app, list_elem_of_singleton. split.
    + apply Hfresh. now right.
    + intros ->. contradiction.
Qed.

End KeyOrder.

(* ================================================================== *)
(** ** The frame decoder: layout, errors, determinism *)
(* ================================================================== *)

Lemma row_major_bound (k h w i r c : nat) :
  i < k -> r < h -> c <= w -> r * w + c <= h * w ->
  i * (h * w) + r * w + c <= k * (h * w).
Proof.
  intros Hi Hr Hc Hrow.
  assert ((i + 1) * (h * w) <= k * (h * w)) by (apply Nat.mul_le_mono_r; lia).
  lia.
Qed.

Lemma row_bound (h w r c : nat) : r < h -> c <= w -> r * w + c <= h * w.
Proof.
  intros Hr Hc.
  assert ((r + 1) * w <= h * w) by (apply Nat.mul_le_mono_r; lia).
  lia.
Qed.

Lemma lookup_map {A B} (g : A -> B) (l : list A) (i : nat) :
  map g l !! i = g <$> (l !! i).
Proof. exact (list_lookup_fmap g l i). Qed.

Lemma cell_rows_at (buf : list float64) (k h w i r c : nat) :
  i < k -> r < h -> c < w ->
  cell (map (rows_at buf h w) (seq 0 k)) i r c
  = buf !! (i * (h * w) + r * w + c).
Proof.
  intros Hi Hr Hc. unfold cell, rows_at, grid.
  rewrite lookup_map, lookup_seq_lt by assumption.
  cbn [fmap option_fmap option_map mbind option_bind Nat.add].
  rewrite lookup_map, lookup_seq_lt by assumption.
  cbn [fmap option_fmap option_map mbind option_bind Nat.add].
  now rewrite lookup_row.
Qed.

(** C1. For a readable buffer of [n = len/8] float64 values and positive
    [w], [h] with [n mod (w*h) = 0], the decoder returns an array of shape
    [(n/(w*h), h, w)] over the buffer's values: it has [n/(w*h)] frames, each
    of [h] rows of [w] columns; frame [i] is the slice
    [[i*w*h, (i+1)*w*h)] of the values, and the value at row [r], column [c]
    of frame [i] is value number [i*w*h + r*w + c] (row-major). *)
Theorem load_depth_data_frames_row_major
  (fs : filesystem) (f : string) (bs : list byte) (w h : nat) (t : trace) :
  fs f = Some (File true bs) ->
  0 < w -> 0 < h ->
  (length bs / 8) mod (w * h) = 0 ->
  exists (arr : ndarray) (fr : list grid),
    load_depth_data_frames fs f (Z.of_nat w) (Z.of_nat h) t
    = (Return arr, (t ++ [Open f])%list)
    /\ length (fromfile_items bs) = length bs / 8
    /\ shape arr = [(length bs / 8) / (w * h); h; w]
    /\ frames arr = Some fr
    /\ length fr = (length bs / 8) / (w * h)
    /\ (forall i g, fr !! i = Some g ->
          frame arr i = Some g
          /\ length g = h
          /\ Forall (fun row => length row = w) g
          /\ concat g = take (w * h) (drop (i * (w * h)) (fromfile_items bs)))
    /\ (forall i r c,
          i < (length bs / 8) / (w * h) -> r < h -> c < w ->
          exists v,
            fromfile_items bs !! (i * (w * h) + r * w + c) = Some v
            /\ cell fr i r c = Some v
            /\ item arr [i; r; c] = Some v).
Proof.
  intros Hf Hw Hh Hmod.
  pose proof (length_fromfile_items bs) as Hlen.
  set (values := fromfile_items bs) in *.
  set (n := length bs / 8) in *.
  set (k := n / (w * h)) in *.
  assert (n = k * (h * w)) as Hn.
  { subst k. rewrite (Nat.mul_comm h w).
    rewrite (Nat.div_mod_eq n (w * h)) at 1. rewrite Hmod. lia. }
  exists (mk_ndarray [k; h; w] values), (map (rows_at values h w) (seq 0 k)).
  split; [now apply decode_divisible|].
  split; [assumption|]. split; [reflexivity|].
  split; [apply frames_rows|].
  split; [now rewrite length_map, length_seq|].
  split.
  - intros i g Hg. rewrite lookup_map in Hg.
    destruct (seq 0 k !! i) as [j|] eqn:Hj; [|discriminate].
    apply lookup_seq in Hj as [-> Hi]. cbn in Hg. injection Hg as <-.
    split; [now apply frame_rows|].
    split; [unfold rows_at; now rewrite length_map, length_seq|].
    split.
    + unfold rows_at. apply Forall_forall. intros row Hrow.
      apply list_elem_of_In, in_map_iff in Hrow as (r & <- & Hr).
      apply in_seq in Hr. apply length_row. rewrite Hlen, Hn.
      apply row_major_bound; try lia. apply row_bound; lia.
    + unfold rows_at. rewrite concat_rows. now rewrite (Nat.mul_comm w h).
  - intros i r c Hi Hr Hc.
    assert (i * (w * h) + r * w + c < length values) as Hidx.
    { rewrite Hlen, Hn, (Nat.mul_comm w h).
      pose proof (row_major_bound k h w i r (S c) Hi Hr Hc
                    (row_bound h w r (S c) Hr Hc)). lia. }
    destruct (lookup_lt_is_Some_2 _ _ Hidx) as [v Hv].
    exists v. split; [assumption|]. split.
    + rewrite (cell_rows_at values k) by assumption.
      now rewrite (Nat.mul_comm h w).
    + rewrite item_row_major by assumption.
      now rewrite (Nat.mul_comm h w).
Qed.

(** The buffer [0.0, 1.0, ..., 11.0] decoded with [w = 4], [h = 3]: one frame
    with rows [0 1 2 3], [4 5 6 7], [8 9 10 11]. *)
Lemma ramp_4x3_frames :
  disk "input/a.bin" = Some (File true (ramp 12))
  /\ (length (ramp 12) / 8) mod (4 * 3) = 0
  /\ exists arr,
       load_depth_data_frames disk "input/a.bin" 4 3 []
       = (Return arr, [Open "input/a.bin"])
       /\ frames arr
          = Some [map (map float64_of_nat) [[0; 1; 2; 3]; [4; 5; 6; 7]; [8; 9; 10; 11]]].
Proof.
  assert (disk "input/a.bin" = Some (File true (ramp 12))) as Hf by reflexivity.
  assert ((length (ramp 12) / 8) mod (4 * 3) = 0) as Hmod by reflexivity.
  destruct (load_depth_data_frames_row_major disk "input/a.bin" (ramp 12) 4 3 []
              Hf ltac:(lia) ltac:(lia) Hmod)
    as (arr & fr & Hrun & _).
  split; [exact Hf|]. split; [exact Hmod|].
  exists arr. split; [exact Hrun|].
  vm_compute in Hrun. injection Hrun as <-. reflexivity.
Defined.

(** C2. For a readable buffer of [n = len/8] float64 values and positive
    [w], [h] with [n mod (w*h) <> 0], the decoder raises [ValueError] with the
    message [Incorrect frame size <w> x <h>]; it returns no array. *)
Theorem load_depth_data_frames_size_mismatch
  (fs : filesystem) (f : string) (bs : list byte) (w h : nat) (t : trace) :
  fs f = Some (File true bs) ->
  0 < w -> 0 < h ->
  (length bs / 8) mod (w * h) <> 0 ->
  load_depth_data_frames fs f (Z.of_nat w) (Z.of_nat h) t
  = (Raise (ValueError ("Incorrect frame size " +:+ pretty (Z.of_nat w)
                        +:+ " x " +:+ pretty (Z.of_nat h))),
     (t ++ [Open f])%list)
  /\ (forall arr t',
        load_depth_data_frames fs f (Z.of_nat w) (Z.of_nat h) t <> (Return arr, t')).
Proof.
  intros Hf Hw Hh Hmod.
  pose proof (decode_mismatch fs f bs w h t Hf Hw Hh Hmod) as Hrun.
  split; [exact Hrun|]. intros arr t'. rewrite Hrun. discriminate.
Qed.

(** Thirteen values do not fill frames of 4 x 3. *)
Lemma ramp_13_mismatch :
  disk "input/b.bin" = Some (File true (ramp 13))
  /\ (length (ramp 13) / 8) mod (4 * 3) <> 0
  /\ load_depth_data_frames disk "input/b.bin" 4 3 []
     = (Raise (ValueError "Incorrect frame size 4 x 3"), [Open "input/b.bin"]).
Proof.
  assert (disk "input/b.bin" = Some (File true (ramp 13))) as Hf by reflexivity.
  assert ((length (ramp 13) / 8) mod (4 * 3) <> 0) as Hmod by (vm_compute; lia).
  split; [exact Hf|]. split; [exact Hmod|].
  exact (proj1 (load_depth_data_frames_size_mismatch disk "input/b.bin" (ramp 13)
                  4 3 [] Hf ltac:(lia) ltac:(lia) Hmod)).
Defined.

Lemma concat_frames {A} (buf : list A) (h w k : nat) :
  concat (concat (map (rows_at buf h w) (seq 0 k))) = take (k * (h * w)) buf.
Proof.
  induction k as [|k IH]; [reflexivity|].
  rewrite seq_S, map_app, !concat_app, IH. cbn [map concat Nat.add].
  rewrite !app_nil_r. unfold rows_at. rewrite concat_rows, take_take_drop.
  f_equal. lia.
Qed.

(** C9. Under the hypotheses of C1, concatenating the rows of all frames,
    frame after frame and row after row, gives back the values of the
    buffer, each once and in their order; written out as bytes they are the
    buffer itself when it consists of whole groups of eight bytes. *)
Theorem load_depth_data_frames_concat
  (fs : filesystem) (f : string) (bs : list byte) (w h : nat) (t : trace) :
  fs f = Some (File true bs) ->
  0 < w -> 0 < h ->
  (length bs / 8) mod (w * h) = 0 ->
  exists (arr : ndarray) (fr : list grid),
    load_depth_data_frames fs f (Z.of_nat w) (Z.of_nat h) t
    = (Return arr, (t ++ [Open f])%list)
    /\ frames arr = Some fr
    /\ concat (concat fr) = fromfile_items bs
    /\ length (concat (concat fr)) = length bs / 8
    /\ (length bs mod 8 = 0 -> tobytes_items (concat (concat fr)) = bs).
Proof.
  intros Hf Hw Hh Hmod.
  pose proof (length_fromfile_items bs) as Hlen.
  exists (mk_ndarray [(length bs / 8) / (w * h); h; w] (fromfile_items bs)),
    (map (rows_at (fromfile_items bs) h w) (seq 0 ((length bs / 8) / (w * h)))).
  split; [now apply decode_divisible|]. split; [apply frames_rows|].
  rewrite concat_frames, take_ge.
  - split; [reflexivity|]. split; [assumption|]. apply tobytes_fromfile.
  - rewrite Hlen, (Nat.mul_comm h w).
    rewrite (Nat.div_mod_eq (length bs / 8) (w * h)) at 1. rewrite Hmod. lia.
Qed.

(** Twenty-four values in frames of 4 x 3: two frames, which concatenate to
    the values [0.0 .. 23.0]. *)
Lemma ramp_24_concat :
  disk "input/c.bin" = Some (File true (ramp 24))
  /\ (length (ramp 24) / 8) mod (4 * 3) = 0
  /\ exists arr fr,
       load_depth_data_frames disk "input/c.bin" 4 3 []
       = (Return arr, [Open "input/c.bin"])
       /\ frames arr = Some fr
       /\ length fr = 2
       /\ concat (concat fr) = map float64_of_nat (seq 0 24).
Proof.
  assert (disk "input/c.bin" = Some (File true (ramp 24))) as Hf by reflexivity.
  assert ((length (ramp 24) / 8) mod (4 * 3) = 0) as Hmod by reflexivity.
  destruct (load_depth_data_frames_concat disk "input/c.bin" (ramp 24) 4 3 []
              Hf ltac:(lia) ltac:(lia) Hmod)
    as (arr & fr & Hrun & Hfr & Hcat & _).
  split; [exact Hf|]. split; [exact Hmod|].
  exists arr, fr. split; [exact Hrun|]. split; [exact Hfr|].
  vm_compute in Hrun. injection Hrun as <-.
  vm_compute in Hfr. injection Hfr as <-. split; reflexivity.
Defined.

(** C6. The decoder's result is a function of the bytes and the shape alone:
    two calls that read the same bytes with the same width and height, in
    whatever file systems, under whatever names and after whatever earlier
    events, return equal arrays (same shape, same frames, same value at every
    index) or raise the same exception. *)
Theorem load_depth_data_frames_deterministic
  (fs1 fs2 : filesystem) (f1 f2 : string) (bs : list byte) (width height : Z)
  (t1 t2 : trace) :
  fs1 f1 = Some (File true bs) ->
  fs2 f2 = Some (File true bs) ->
  (load_depth_data_frames fs1 f1 width height t1).1
  = (load_depth_data_frames fs2 f2 width height t2).1
  /\ (forall a1 a2,
        (load_depth_data_frames fs1 f1 width height t1).1 = Return a1 ->
        (load_depth_data_frames fs2 f2 width height t2).1 = Return a2 ->
        shape a1 = shape a2
        /\ frames a1 = frames a2
        /\ forall idx, item a1 idx = item a2 idx).
Proof.
  intros Hf1 Hf2.
  assert ((load_depth_data_frames fs1 f1 width height t1).1
          = (load_depth_data_frames fs2 f2 width height t2).1) as Heq.
  { unfold load_depth_data_frames.
    rewrite (bind_return _ _ _ _ _ (read_data_readable fs1 f1 bs t1 Hf1)).
    rewrite (bind_return _ _ _ _ _ (read_data_readable fs2 f2 bs t2 Hf2)).
    unfold int_mod. destruct (width * height =? 0)%Z; [reflexivity|].
    unfold mbind, py_bind, mret, py_ret.
    destruct (negb (size (fromfile bs) mod (width * height) =? 0)%Z);
      [reflexivity|].
    now rewrite reshape_trace_uniform, (reshape_trace_uniform _ _ (t2 ++ _)%list). }
  split; [exact Heq|].
  intros a1 a2 H1 H2. rewrite Heq, H2 in H1. injection H1 as ->. auto.
Qed.

(** The same twelve values stored under two names decode alike. *)
Lemma ramp_twice_deterministic :
  disk "input/a.bin" = Some (File true (ramp 12))
  /\ disk "spare/.bin" = Some (File true (ramp 12))
  /\ (load_depth_data_frames disk "input/a.bin" 4 3 []).1
     = (load_depth_data_frames disk "spare/.bin" 4 3 [Print "earlier"]).1.
Proof.
  assert (disk "input/a.bin" = Some (File true (ramp 12))) as H1 by reflexivity.
  assert (disk "spare/.bin" = Some (File true (ramp 12))) as H2 by reflexivity.
  split; [exact H1|]. split; [exact H2|].
  exact (proj1 (load_depth_data_frames_deterministic disk disk "input/a.bin"
                  "spare/.bin" (ramp 12) 4 3 [] [Print "earlier"] H1 H2)).
Defined.

(* ================================================================== *)
(** ** The batch loader: which sources are kept, and in what order *)
(* ================================================================== *)

Section Outcomes.

Variable fs : filesystem.

Lemma outcome_divisible (f : string) (bs : list byte) (w h : nat) :
  fs f = Some (File true bs) -> 0 < w -> 0 < h ->
  (length bs / 8) mod (w * h) = 0 ->
  decode_outcome fs f (Z.of_nat w) (Z.of_nat h)
  = Return (mk_ndarray [(length bs / 8) / (w * h); h; w] (fromfile_items bs))
  /\ decode_events fs f (Z.of_nat w) (Z.of_nat h) = [Open f].
Proof.
  intros Hf Hw Hh Hmod. unfold decode_outcome, decode_events.
  now rewrite (decode_divisible fs f bs w h [] Hf Hw Hh Hmod).
Qed.

Lemma outcome_mismatch (f : string) (bs : list byte) (w h : nat) :
  fs f = Some (File true bs) -> 0 < w -> 0 < h ->
  (length bs / 8) mod (w * h) <> 0 ->
  decode_outcome fs f (Z.of_nat w) (Z.of_nat h)
  = Raise (ValueError ("Incorrect frame size " +:+ pretty (Z.of_nat w)
                       +:+ " x " +:+ pretty (Z.of_nat h)))
  /\ decode_events fs f (Z.of_nat w) (Z.of_nat h) = [Open f].
Proof.
  intros Hf Hw Hh Hmod. unfold decode_outcome, decode_events.
  now rewrite (decode_mismatch fs f bs w h [] Hf Hw Hh Hmod).
Qed.

Lemma outcome_missing (f : string) (width height : Z) :
  fs f = None ->
  decode_outcome fs f width height = Return array_empty
  /\ decode_events fs f width height
     = [Open f; Print (str_exn (FileNotFoundError f))].
Proof.
  intros Hf. unfold decode_outcome, decode_events.
  now rewrite (decode_missing fs f width height [] Hf).
Qed.

(** A readable source decodes only when the frame sides are positive and the
    frame size divides the number of values. *)
Lemma outcome_readable_inv (f : string) (bs : list byte) (width height : Z)
  (a : ndarray) :
  fs f = Some (File true bs) ->
  decode_outcome fs f width height = Return a ->
  exists w h : nat,
    width = Z.of_nat w /\ height = Z.of_nat h /\ 0 < w /\ 0 < h
    /\ (length bs / 8) mod (w * h) = 0
    /\ a = mk_ndarray [(length bs / 8) / (w * h); h; w] (fromfile_items bs).
Proof.
  intros Hf Hout.
  destruct (Z_lt_le_dec 0 width) as [Hw|Hw];
    [destruct (Z_lt_le_dec 0 height) as [Hh|Hh]|].
  - exists (Z.to_nat width), (Z.to_nat height).
    rewrite <- (Z2Nat.id width), <- (Z2Nat.id height) in Hout by lia.
    assert (0 < Z.to_nat width) as Hw' by lia.
    assert (0 < Z.to_nat height) as Hh' by lia.
    destruct (Nat.eq_dec ((length bs / 8) mod (Z.to_nat width * Z.to_nat height)) 0)
      as [Hmod|Hmod].
    + destruct (outcome_divisible f bs _ _ Hf Hw' Hh' Hmod) as [Hret _].
      rewrite Hret in Hout. injection Hout as <-.
      repeat split; lia.
    + destruct (outcome_mismatch f bs _ _ Hf Hw' Hh' Hmod) as [Hret _].
      rewrite Hret in Hout. discriminate.
  - exfalso. revert Hout. unfold decode_outcome, load_depth_data_frames.
    rewrite (bind_return _ _ _ _ _ (read_data_readable fs f bs _ Hf)).
    unfold int_mod. destruct (width * height =? 0)%Z; [discriminate|].
    unfold mbind, py_bind, mret, py_ret.
    destruct (negb (size (fromfile bs) mod (width * height) =? 0)%Z);
      [discriminate|].
    unfold reshape. cbn [scan_dims]. change (-1 <? 0)%Z with true. cbn iota.
    destruct (Z.ltb_spec height 0) as [_|Hh']; [discriminate|].
    assert (height = 0%Z) as -> by lia.
    destruct (width <? 0)%Z; [discriminate|].
    replace (1 * 0 * width)%Z with 0%Z by lia. discriminate.
  - exfalso. revert Hout. unfold decode_outcome, load_depth_data_frames.
    rewrite (bind_return _ _ _ _ _ (read_data_readable fs f bs _ Hf)).
    unfold int_mod. destruct (width * height =? 0)%Z; [discriminate|].
    unfold mbind, py_bind, mret, py_ret.
    destruct (negb (size (fromfile bs) mod (width * height) =? 0)%Z);
      [discriminate|].
    unfold reshape. cbn [scan_dims]. change (-1 <? 0)%Z with true. cbn iota.
    destruct (height <? 0)%Z; [discriminate|].
    destruct (Z.ltb_spec width 0) as [_|Hw']; [discriminate|].
    assert (width = 0%Z) as -> by lia.
    replace (1 * height * 0)%Z with 0%Z by lia. discriminate.
Qed.

(** A source that is in the result was named in the input and decoded. *)
Lemma batch_entry_inv (names : list string) (width height : Z) (t t' : trace)
  (m : dict ndarray) (f : string) (a : ndarray) :
  load_depth_data_sets fs names width height t = (Return m, t') ->
  dict_get m f = Some a ->
  f ∈ names /\ decode_outcome fs f width height = Return a.
Proof.
  intros Hrun Hget. unfold load_depth_data_sets in Hrun.
  rewrite (load_loop_get fs width height names _ _ _ _ Hrun f) in Hget.
  destruct (bool_decide_reflect (f ∈ names)) as [Hin|_]; [|discriminate].
  split; [assumption|]. unfold decoded in Hget.
  destruct (decode_outcome fs f width height); [|discriminate].
  cbn in Hget. congruence.
Qed.

Lemma batch_entry (names : list string) (width height : Z) (t t' : trace)
  (m : dict ndarray) (f : string) :
  load_depth_data_sets fs names width height t = (Return m, t') ->
  f ∈ names ->
  dict_get m f = decoded fs width height f.
Proof.
  intros Hrun Hin. unfold load_depth_data_sets in Hrun.
  rewrite (load_loop_get fs width height names _ _ _ _ Hrun f).
  rewrite bool_decide_eq_true_2 by assumption.
  now destruct (decoded fs width height f).
Qed.

End Outcomes.

(** C3, as the source has it.  A source whose file is not found
    ([open] raises [FileNotFoundError]) makes the decoder print the error
    and return [np.array([])], an array without frames; the batch stores it
    under the source's name and goes on with the remaining sources. *)
Theorem missing_source_is_kept_empty
  (fs : filesystem) (f : string) (width height : Z) (t : trace) :
  fs f = None ->
  load_depth_data_frames fs f width height t
  = (Return array_empty,
     (t ++ [Open f; Print (str_exn (FileNotFoundError f))])%list)
  /\ shape0 array_empty = 0
  /\ frames array_empty = Some []
  /\ (forall rest d,
        load_loop fs (f :: rest) width height d t
        = load_loop fs rest width height (dict_set d f array_empty)
            (t ++ [Open f; Print (str_exn (FileNotFoundError f))])%list)
  /\ (forall names m t',
        f ∈ names ->
        load_depth_data_sets fs names width height t = (Return m, t') ->
        dict_get m f = Some array_empty).
Proof.
  intros Hf.
  destruct (outcome_missing fs f width height Hf) as [Hout Hev].
  split; [now apply decode_missing|].
  split; [reflexivity|]. split; [reflexivity|]. split.
  - intros rest d. now rewrite load_loop_step, Hout, Hev.
  - intros names m t' Hin Hrun.
    rewrite (batch_entry fs names width height t t' m f Hrun Hin).
    unfold decoded. now rewrite Hout.
Qed.

(** A name with no file behind it, between two good files. *)
Lemma missing_source_in_batch :
  disk "nowhere.bin" = None
  /\ load_depth_data_sets disk ["input/a.bin"; "nowhere.bin"; "input/c.bin"] 4 3 []
     = (Return [("input/a.bin", mk_ndarray [1; 3; 4] (fromfile_items (ramp 12)));
                ("nowhere.bin", array_empty);
                ("input/c.bin", mk_ndarray [2; 3; 4] (fromfile_items (ramp 24)))],
        [Open "input/a.bin"; Open "nowhere.bin";
         Print "[Errno 2] No such file or directory: 'nowhere.bin'";
         Open "input/c.bin"])
  /\ load_depth_data_frames disk "nowhere.bin" 4 3 []
     = (Return array_empty,
        [Open "nowhere.bin";
         Print "[Errno 2] No such file or directory: 'nowhere.bin'"]).
Proof.
  assert (disk "nowhere.bin" = None) as Hf by reflexivity.
  split; [exact Hf|]. split; [vm_compute; reflexivity|].
  exact (proj1 (missing_source_is_kept_empty disk "nowhere.bin" 4 3 [] Hf)).
Defined.

(** C3 as stated fails for a file that exists but cannot be opened: [open]
    raises [PermissionError], which neither function catches, so the decoder
    fails and the batch ends without a mapping and without opening the
    remaining source. *)
Lemma locked_source_aborts_batch :
  disk "locked.bin" = Some (File false (ramp 12))
  /\ load_depth_data_frames disk "locked.bin" 4 3 []
     = (Raise (PermissionError "locked.bin"), [Open "locked.bin"])
  /\ load_depth_data_sets disk ["locked.bin"; "input/a.bin"] 4 3 []
     = (Raise (PermissionError "locked.bin"), [Open "locked.bin"])
  /\ ~ (exists a t',
          load_depth_data_frames disk "locked.bin" 4 3 [] = (Return a, t')
          /\ frames a = Some []).
Proof.
  split; [reflexivity|]. split; [vm_compute; reflexivity|].
  split; [vm_compute; reflexivity|].
  intros (a & t' & Hrun & _). vm_compute in Hrun. discriminate.
Qed.

(** C4, as the source has it.  In the mapping a batch returns, a source whose
    decode raised [ValueError] has no entry, and a line naming it and the
    error was printed.  A source has an entry without frames only if its file
    was not found or holds fewer than eight bytes (no complete value). *)
Theorem batch_excludes_failed_sources
  (fs : filesystem) (names : list string) (width height : Z) (t t' : trace)
  (m : dict ndarray) :
  load_depth_data_sets fs names width height t = (Return m, t') ->
  (forall f msg,
     f ∈ names ->
     decode_outcome fs f width height = Raise (ValueError msg) ->
     dict_get m f = None
     /\ (f ∉ keys m)
     /\ Print (f +:+ ": " +:+ msg) ∈ t')
  /\ (forall f a,
        dict_get m f = Some a -> frames a = Some [] ->
        fs f = None
        \/ exists bs, fs f = Some (File true bs) /\ length bs < 8).
Proof.
  intros Hrun. split.
  - intros f msg Hin Hout.
    assert (dict_get m f = None) as Hget.
    { rewrite (batch_entry fs names width height t t' m f Hrun Hin).
      unfold decoded. now rewrite Hout. }
    split; [exact Hget|]. split.
    + rewrite dict_get_keys, Hget. intros [? [=]].
    + unfold load_depth_data_sets in Hrun.
      eapply load_loop_logged; eauto.
  - intros f a Hget Hfr.
    destruct (batch_entry_inv fs names width height t t' m f a Hrun Hget)
      as [_ Hout].
    destruct (fs f) as [[[] bs|es]|] eqn:Hf.
    + right. exists bs. split; [reflexivity|].
      destruct (outcome_readable_inv fs f bs width height a Hf Hout)
        as (w & h & -> & -> & Hw & Hh & Hmod & ->).
      pose proof (Nat.div_mod_eq (length bs) 8) as H8.
      pose proof (Nat.mod_upper_bound (length bs) 8 ltac:(lia)) as Hlt.
      remember (length bs / 8) as n eqn:En.
      pose proof (Nat.div_mod_eq n (w * h)) as Hn.
      remember (n / (w * h)) as k eqn:Ek.
      rewrite frames_rows in Hfr.
      assert (length (map (rows_at (fromfile_items bs) h w) (seq 0 k)) = 0)
        as Hk by (injection Hfr as ->; reflexivity).
      rewrite length_map, length_seq in Hk. subst k. rewrite Hk in Hn. lia.
    + exfalso. unfold decode_outcome in Hout.
      rewrite (decode_locked fs f bs _ _ _ Hf) in Hout. discriminate.
    + exfalso. unfold decode_outcome, load_depth_data_frames in Hout.
      rewrite (bind_raise _ _ _ _ _ (read_data_directory fs f es _ Hf)) in Hout.
      discriminate.
    + now left.
Qed.

(** A batch with a mismatched file and an empty file. *)
Lemma batch_with_mismatch_and_empty :
  load_depth_data_sets disk ["input/b.bin"; "empty.bin"] 4 3 []
  = (Return [("empty.bin", mk_ndarray [0; 3; 4] [])],
     [Open "input/b.bin"; Print "input/b.bin: Incorrect frame size 4 x 3";
      Open "empty.bin"])
  /\ (forall f msg,
        f ∈ ["input/b.bin"; "empty.bin"] ->
        decode_outcome disk f 4 3 = Raise (ValueError msg) ->
        dict_get [("empty.bin", mk_ndarray [0; 3; 4] [])] f = None
        /\ (f ∉ keys [("empty.bin", mk_ndarray [0; 3; 4] [])])
        /\ Print (f +:+ ": " +:+ msg)
             ∈ [Open "input/b.bin";
                Print "input/b.bin: Incorrect frame size 4 x 3";
                Open "empty.bin"]).
Proof.
  assert (load_depth_data_sets disk ["input/b.bin"; "empty.bin"] 4 3 []
          = (Return [("empty.bin", mk_ndarray [0; 3; 4] [])],
             [Open "input/b.bin"; Print "input/b.bin: Incorrect frame size 4 x 3";
              Open "empty.bin"])) as Hrun by (vm_compute; reflexivity).
  split; [exact Hrun|].
  exact (proj1 (batch_excludes_failed_sources disk _ 4 3 _ _ _ Hrun)).
Defined.

(** C4 as stated fails on its last clause: a file that opens but holds no
    bytes is in the mapping with an empty frame sequence. *)
Lemma opened_source_with_empty_sequence :
  disk "empty.bin" = Some (File true [])
  /\ load_depth_data_sets disk ["empty.bin"] 4 3 []
     = (Return [("empty.bin", mk_ndarray [0; 3; 4] [])], [Open "empty.bin"])
  /\ frames (mk_ndarray [0; 3; 4] []) = Some []
  /\ ~ (forall names m t' f a,
          load_depth_data_sets disk names 4 3 [] = (Return m, t') ->
          dict_get m f = Some a -> frames a = Some [] ->
          forall bs, disk f <> Some (File true bs)).
Proof.
  split; [reflexivity|]. split; [vm_compute; reflexivity|].
  split; [reflexivity|].
  intros Hclaim.
  apply (Hclaim ["empty.bin"] [("empty.bin", mk_ndarray [0; 3; 4] [])]
           [Open "empty.bin"] "empty.bin" (mk_ndarray [0; 3; 4] [])
           ltac:(vm_compute; reflexivity) eq_refl eq_refl []).
  reflexivity.
Qed.

(** C5, as the source has it.  A decode that fails with [ValueError] (a
    size that does not fit the frame shape) is logged and skipped, and the
    loop goes on with the sources after it from the mapping it had.  With
    three readable sources [A], [B], [C] of which only [B] does not fit, the
    batch opens all three in order and returns a mapping with the decoded
    frames of [A] and of [C] and no entry for [B].  (A decode that fails with
    any other exception is not survived.) *)
Theorem batch_survives_mismatch
  (fs : filesystem) (A B C : string) (bsA bsB bsC : list byte) (w h : nat)
  (t : trace) :
  fs A = Some (File true bsA) ->
  fs B = Some (File true bsB) ->
  fs C = Some (File true bsC) ->
  0 < w -> 0 < h ->
  (length bsA / 8) mod (w * h) = 0 ->
  (length bsB / 8) mod (w * h) <> 0 ->
  (length bsC / 8) mod (w * h) = 0 ->
  (forall rest d t0,
     load_loop fs (B :: rest) (Z.of_nat w) (Z.of_nat h) d t0
     = load_loop fs rest (Z.of_nat w) (Z.of_nat h) d
         (t0 ++ [Open B;
                 Print (B +:+ ": " +:+ "Incorrect frame size "
                        +:+ pretty (Z.of_nat w) +:+ " x " +:+ pretty (Z.of_nat h))])%list)
  /\ exists m,
       load_depth_data_sets fs [A; B; C] (Z.of_nat w) (Z.of_nat h) t
       = (Return m,
          (t ++ [Open A; Open B;
                 Print (B +:+ ": " +:+ "Incorrect frame size "
                        +:+ pretty (Z.of_nat w) +:+ " x " +:+ pretty (Z.of_nat h));
                 Open C])%list)
       /\ dict_get m A
          = Some (mk_ndarray [(length bsA / 8) / (w * h); h; w] (fromfile_items bsA))
       /\ dict_get m B = None
       /\ dict_get m C
          = Some (mk_ndarray [(length bsC / 8) / (w * h); h; w] (fromfile_items bsC))
       /\ (forall f msg rest d t0,
             decode_outcome fs f (Z.of_nat w) (Z.of_nat h) = Raise (ValueError msg) ->
             load_loop fs (f :: rest) (Z.of_nat w) (Z.of_nat h) d t0
             = load_loop fs rest (Z.of_nat w) (Z.of_nat h) d
                 (t0 ++ decode_events fs f (Z.of_nat w) (Z.of_nat h)
                     ++ [Print (f +:+ ": " +:+ msg)])%list).
Proof.
  intros HA HB HC Hw Hh HmA HmB HmC.
  destruct (outcome_divisible fs A bsA w h HA Hw Hh HmA) as [HoA HeA].
  destruct (outcome_mismatch fs B bsB w h HB Hw Hh HmB) as [HoB HeB].
  destruct (outcome_divisible fs C bsC w h HC Hw Hh HmC) as [HoC HeC].
  assert (A <> B) as HAB by (intros ->; congruence).
  assert (C <> B) as HCB by (intros ->; congruence).
  assert (forall f msg rest d t0,
            decode_outcome fs f (Z.of_nat w) (Z.of_nat h) = Raise (ValueError msg) ->
            load_loop fs (f :: rest) (Z.of_nat w) (Z.of_nat h) d t0
            = load_loop fs rest (Z.of_nat w) (Z.of_nat h) d
                (t0 ++ decode_events fs f (Z.of_nat w) (Z.of_nat h)
                    ++ [Print (f +:+ ": " +:+ msg)])%list) as Hstep
    by (intros f msg rest d t0 Hout; now rewrite load_loop_step, Hout).
  split.
  - intros rest d t0. now rewrite load_loop_step, HoB, HeB.
  - eexists. unfold load_depth_data_sets.
    rewrite load_loop_step, HoA, HeA, load_loop_step, HoB, HeB,
      load_loop_step, HoC, HeC.
    cbn [load_loop]. unfold mret, py_ret.
    split; [now rewrite <- !app_assoc|].
    rewrite !dict_get_set. cbn [dict_get].
    rewrite (bool_decide_eq_false_2 (C = B)) by assumption.
    rewrite (bool_decide_eq_false_2 (A = B)) by assumption.
    rewrite (bool_decide_eq_true_2 (A = A)), (bool_decide_eq_true_2 (C = C))
      by reflexivity.
    split; [|split; [reflexivity|split; [reflexivity|]]].
    + destruct (bool_decide_reflect (C = A)) as [->|_]; [|reflexivity].
      congruence.
    + exact Hstep.
Qed.

(** Files of 12, 13 and 24 values with frames of 4 x 3. *)
Lemma batch_of_three :
  (length (ramp 13) / 8) mod (4 * 3) <> 0
  /\ exists m,
       load_depth_data_sets disk ["input/a.bin"; "input/b.bin"; "input/c.bin"] 4 3 []
       = (Return m,
          [Open "input/a.bin"; Open "input/b.bin";
           Print "input/b.bin: Incorrect frame size 4 x 3"; Open "input/c.bin"])
       /\ keys m = ["input/a.bin"; "input/c.bin"]
       /\ dict_get m "input/b.bin" = None.
Proof.
  assert ((length (ramp 13) / 8) mod (4 * 3) <> 0) as HmB by (vm_compute; lia).
  destruct (batch_survives_mismatch disk "input/a.bin" "input/b.bin" "input/c.bin"
              (ramp 12) (ramp 13) (ramp 24) 4 3 []
              eq_refl eq_refl eq_refl ltac:(lia) ltac:(lia) eq_refl HmB eq_refl)
    as (_ & m & Hrun & _ & HB & _).
  split; [exact HmB|]. exists m. split; [exact Hrun|].
  split; [|exact HB].
  vm_compute in Hrun. injection Hrun as <-. reflexivity.
Defined.

(** C5 as stated fails for a decode failure that is not a [ValueError]: of
    three regular files, the second cannot be opened; its [PermissionError]
    ends the batch, the third file is never opened and no mapping is
    returned. *)
Lemma locked_source_stops_later_sources :
  guarded_disk "input/a.bin" = Some (File true [])
  /\ guarded_disk "input/l.bin" = Some (File false [])
  /\ guarded_disk "input/z.bin" = Some (File true [])
  /\ load_depth_data_frames guarded_disk "input/l.bin" 4 3 []
     = (Raise (PermissionError "input/l.bin"), [Open "input/l.bin"])
  /\ load_depth_data_sets guarded_disk
       ["input/a.bin"; "input/l.bin"; "input/z.bin"] 4 3 []
     = (Raise (PermissionError "input/l.bin"),
        [Open "input/a.bin"; Open "input/l.bin"])
  /\ ~ (exists m t',
          load_depth_data_sets guarded_disk
            ["input/a.bin"; "input/l.bin"; "input/z.bin"] 4 3 []
          = (Return m, t')).
Proof.
  repeat (split; [vm_compute; reflexivity|]).
  intros (m & t' & Hrun). vm_compute in Hrun. discriminate.
Qed.

(** C8. The keys of the mapping a batch returns are a subsequence of the
    input list: they are the input's sources that were not excluded, without
    repetition and in the input's order (each at its first occurrence); for
    an input without repetitions they are exactly the input restricted to the
    sources that were not excluded. *)
Theorem batch_keys_follow_input
  (fs : filesystem) (names : list string) (width height : Z) (t t' : trace)
  (m : dict ndarray) :
  load_depth_data_sets fs names width height t = (Return m, t') ->
  sublist (keys m) names
  /\ (forall f, f ∈ keys m <-> f ∈ names /\ excluded fs width height f = false)
  /\ NoDup (keys m)
  /\ keys m
     = foldl push_key []
         (filter (fun f => excluded fs width height f = false) names)
  /\ (NoDup names ->
      keys m = filter (fun f => excluded fs width height f = false) names).
Proof.
  intros Hrun. unfold load_depth_data_sets in Hrun.
  pose proof (load_loop_keys fs width height names _ _ _ _ Hrun) as Hkeys.
  cbn [keys map] in Hkeys.
  destruct (foldl_push_key
              (filter (fun f => excluded fs width height f = false) names)
              [] (@NoDup_nil_2 string))
    as (ext & Hext & Hsub & Hnd & Hmem).
  cbn [app] in Hext, Hnd.
  assert (keys m = ext) as Hm by congruence.
  split; [|split; [|split; [|split]]].
  - rewrite Hm. etransitivity; [exact Hsub | apply sublist_filter].
  - intros f. rewrite Hm, Hmem, list_elem_of_filter.
    split; [intros [[? ?] _]; auto | intros [? ?]; split; [auto|]].
    apply not_elem_of_nil.
  - now rewrite Hm.
  - exact Hkeys.
  - intros Hnames. rewrite Hkeys.
    rewrite foldl_push_key_fresh; [reflexivity | now apply NoDup_filter |].
    intros x _. apply not_elem_of_nil.
Qed.

(** A batch that names one source twice: the key stays where it first
    appeared. *)
Lemma batch_keys_of_four :
  exists m t',
    load_depth_data_sets disk
      ["input/c.bin"; "input/b.bin"; "input/a.bin"; "input/c.bin"] 4 3 []
    = (Return m, t')
    /\ keys m = ["input/c.bin"; "input/a.bin"]
    /\ sublist (keys m) ["input/c.bin"; "input/b.bin"; "input/a.bin"; "input/c.bin"].
Proof.
  destruct (load_depth_data_sets disk
              ["input/c.bin"; "input/b.bin"; "input/a.bin"; "input/c.bin"] 4 3 [])
    as [[m|e] t'] eqn:Hrun; [|vm_compute in Hrun; discriminate].
  exists m, t'. split; [reflexivity|].
  split; [vm_compute in Hrun; injection Hrun as <- _; reflexivity|].
  exact (proj1 (batch_keys_follow_input disk _ 4 3 [] t' m Hrun)).
Defined.

(** C10, as the source has it.  A readable file of zero bytes decodes (for
    positive [w], [h]) to an array of shape [(0, h, w)], which has no frames;
    the batch stores it under the source's name.  It has the same (empty)
    frame sequence as the array of a missing file and renders as nothing, but
    the two arrays differ in shape: [(0, h, w)] against [(0,)]. *)
Theorem empty_file_is_kept_without_frames
  (fs : filesystem) (f : string) (w h : nat) (t : trace) :
  fs f = Some (File true []) ->
  0 < w -> 0 < h ->
  load_depth_data_frames fs f (Z.of_nat w) (Z.of_nat h) t
  = (Return (mk_ndarray [0; h; w] []), (t ++ [Open f])%list)
  /\ shape0 (mk_ndarray [0; h; w] []) = 0
  /\ frames (mk_ndarray [0; h; w] []) = Some []
  /\ (forall rest d,
        load_loop fs (f :: rest) (Z.of_nat w) (Z.of_nat h) d t
        = load_loop fs rest (Z.of_nat w) (Z.of_nat h)
            (dict_set d f (mk_ndarray [0; h; w] [])) (t ++ [Open f])%list)
  /\ (forall names m t',
        f ∈ names ->
        load_depth_data_sets fs names (Z.of_nat w) (Z.of_nat h) t = (Return m, t') ->
        dict_get m f = Some (mk_ndarray [0; h; w] []))
  /\ frames (mk_ndarray [0; h; w] []) = frames array_empty
  /\ (forall path t0,
        create_heatmap (mk_ndarray [0; h; w] []) path t0 = (Return tt, t0)
        /\ create_heatmap array_empty path t0 = (Return tt, t0))
  /\ shape (mk_ndarray [0; h; w] []) <> shape array_empty.
Proof.
  intros Hf Hw Hh.
  assert ((length (@nil byte) / 8) mod (w * h) = 0) as Hmod
    by (cbn [length]; now rewrite Nat.Div0.div_0_l, Nat.Div0.mod_0_l).
  assert ((length (@nil byte) / 8) / (w * h) = 0) as Hdiv
    by (cbn [length]; now rewrite !Nat.Div0.div_0_l).
  destruct (outcome_divisible fs f [] w h Hf Hw Hh Hmod) as [Hout Hev].
  rewrite Hdiv in Hout. cbn [fromfile_items] in Hout.
  split.
  { rewrite (decode_divisible fs f [] w h t Hf Hw Hh Hmod). now rewrite Hdiv. }
  split; [reflexivity|]. split; [reflexivity|]. split.
  { intros rest d. now rewrite load_loop_step, Hout, Hev. }
  split.
  { intros names m t' Hin Hrun.
    rewrite (batch_entry fs names _ _ t t' m f Hrun Hin).
    unfold decoded. now rewrite Hout. }
  split; [reflexivity|]. split; [now split|].
  cbn [shape array_empty]. discriminate.
Qed.

(** The empty file of the test disk, with frames of 4 x 3. *)
Lemma empty_file_4x3 :
  disk "empty.bin" = Some (File true [])
  /\ load_depth_data_frames disk "empty.bin" 4 3 []
     = (Return (mk_ndarray [0; 3; 4] []), [Open "empty.bin"]).
Proof.
  assert (disk "empty.bin" = Some (File true [])) as Hf by reflexivity.
  split; [exact Hf|].
  exact (proj1 (empty_file_is_kept_without_frames disk "empty.bin" 4 3 [] Hf
                  ltac:(lia) ltac:(lia))).
Defined.

(** C10 as stated fails on its last clause: in the mapping, the entry of an
    empty file and the entry of a missing file are different arrays. *)
Lemma empty_and_missing_entries_differ :
  exists a1 a2 t',
    load_depth_data_sets disk ["empty.bin"; "nowhere.bin"] 4 3 []
    = (Return [("empty.bin", a1); ("nowhere.bin", a2)], t')
    /\ disk "empty.bin" = Some (File true [])
    /\ disk "nowhere.bin" = None
    /\ shape a1 = [0; 3; 4]
    /\ shape a2 = [0]
    /\ a1 <> a2.
Proof.
  exists (mk_ndarray [0; 3; 4] []), array_empty. eexists.
  split; [vm_compute; reflexivity|].
  repeat (split; [reflexivity|]). discriminate.
Qed.

(* ================================================================== *)
(** ** The directory scan and the script *)
(* ================================================================== *)

Section DirectoryScan.

Variable fs : filesystem.
Variable module_dir : string.

Lemma data_abs_path_eq (input_data_dir : string) :
  (if isabs input_data_dir then join module_dir input_data_dir
   else input_data_dir) = input_data_dir.
Proof.
  unfold isabs, join. now destruct (startswith sep input_data_dir).
Qed.

Lemma scan_entries_spec (dir : string) (entries : list string) :
  forall (acc : list string) (t : trace),
  exists evs,
    scan_entries fs dir entries acc t
    = (Return (acc ++ map (join dir)
                        (filter (fun e => bin_file fs dir e = true) entries))%list,
       (t ++ evs)%list)
    /\ Forall (fun ev => is_print ev = true) evs.
Proof.
  induction entries as [|e entries IH]; intros acc t.
  - exists []. cbn. now rewrite !app_nil_r.
  - cbn [scan_entries]. rewrite filter_cons.
    destruct (isfile fs (join dir e)) eqn:Hfile; cbn [negb].
    + destruct (bool_decide ((splitext e).2 = ".bin")) eqn:Hext; cbn [negb].
      * rewrite decide_True by (unfold bin_file; now rewrite Hfile, Hext).
        destruct (IH (acc ++ [join dir e])%list t) as (evs & -> & Hevs).
        exists evs. cbn [map]. now rewrite <- app_assoc.
      * rewrite decide_False
          by (unfold bin_file; rewrite Hfile, Hext; discriminate).
        unfold print, emit, mbind, py_bind.
        destruct (IH acc (t ++ [Print ("Skipping file " +:+ e +:+
                    " because it doesn't have the correct file type")])%list)
          as (evs & -> & Hevs).
        eexists (_ :: evs). rewrite <- app_assoc. split; [reflexivity|].
        now constructor.
    + rewrite decide_False by (unfold bin_file; rewrite Hfile; discriminate).
      unfold print, emit, mbind, py_bind.
      destruct (IH acc (t ++ [Print ("Could not load file " +:+ join dir e +:+
                  " because it does not exist")])%list)
        as (evs & -> & Hevs).
      eexists (_ :: evs). rewrite <- app_assoc. split; [reflexivity|].
      now constructor.
Qed.

Lemma load_input_file_paths_missing (dir : string) (t : trace) :
  fs dir = None ->
  load_input_file_paths fs module_dir dir t
  = (Raise (SystemExit 1),
     (t ++ [Print ("Directory " +:+ dir +:+ " does not exist")])%list).
Proof.
  intros Hdir. unfold load_input_file_paths.
  rewrite data_abs_path_eq. unfold exists_. rewrite Hdir. reflexivity.
Qed.

Lemma load_input_file_paths_dir (dir : string) (entries : list string)
  (t : trace) :
  fs dir = Some (Dir entries) ->
  exists evs,
    Forall (fun ev => is_print ev = true) evs
    /\ load_input_file_paths fs module_dir dir t
       = match map (join dir)
                 (filter (fun e => bin_file fs dir e = true) entries) with
         | [] =>
             (Raise (SystemExit 1),
              (t ++ evs ++ [Print ("Input directory " +:+ dir +:+ " is empty")])%list)
         | kept => (Return kept, (t ++ evs)%list)
         end.
Proof.
  intros Hdir.
  destruct (scan_entries_spec dir entries [] t) as (evs & Hscan & Hevs).
  exists evs. split; [assumption|].
  unfold load_input_file_paths.
  rewrite data_abs_path_eq. unfold exists_, listdir. rewrite Hdir.
  cbn [negb]. unfold mbind at 1 2, py_bind, mret at 1 2, py_ret.
  unfold mbind at 1, py_bind. rewrite Hscan. cbn [app].
  destruct (map (join dir) (filter (fun e => bin_file fs dir e = true) entries));
    cbn; unfold print, emit, exit, raise, mbind, py_bind, mret, py_ret;
    [now rewrite <- app_assoc | reflexivity].
Qed.

Lemma load_input_file_paths_not_dir (dir : string) (r : bool) (bs : list byte)
  (t : trace) :
  fs dir = Some (File r bs) ->
  load_input_file_paths fs module_dir dir t = (Raise (NotADirectoryError dir), t).
Proof.
  intros Hdir. unfold load_input_file_paths.
  rewrite data_abs_path_eq. unfold exists_, listdir. now rewrite Hdir.
Qed.

Lemma filter_none {A} (P : A -> bool) (l : list A) :
  Forall (fun x => P x = false) l -> filter (fun x => P x = true) l = [].
Proof.
  induction 1 as [|x l Hx _ IH]; [reflexivity|].
  rewrite filter_cons, decide_False by congruence. exact IH.
Qed.

End DirectoryScan.

(** C7. If the input directory does not exist, or exists and holds no
    regular file with the extension [.bin], the scan prints a message and
    raises [SystemExit(1)]; up to then only lines were printed and no file
    was opened, and the script, which scans [INPUT_FOLDER] first, ends there
    with exit status 1.  Whenever the scan returns, its list is not empty. *)
Theorem load_input_file_paths_fatal_when_empty
  (fs : filesystem) (module_dir dir : string) (t : trace) :
  (fs dir = None
   \/ exists entries,
        fs dir = Some (Dir entries)
        /\ Forall (fun e => bin_file fs dir e = false) entries) ->
  (exists evs msg,
     load_input_file_paths fs module_dir dir t
     = (Raise (SystemExit 1), (t ++ evs ++ [Print msg])%list)
     /\ Forall (fun ev => is_print ev = true) evs
     /\ (dir = INPUT_FOLDER ->
         script fs module_dir t
         = (Raise (SystemExit 1), (t ++ evs ++ [Print msg])%list)
         /\ exit_status (script fs module_dir t).1 = 1%Z))
  /\ (forall dir' t0 l t',
        load_input_file_paths fs module_dir dir' t0 = (Return l, t') -> l <> []).
Proof.
  intros Hdir. split.
  - assert (exists evs msg,
              load_input_file_paths fs module_dir dir t
              = (Raise (SystemExit 1), (t ++ evs ++ [Print msg])%list)
              /\ Forall (fun ev => is_print ev = true) evs)
      as (evs & msg & Hrun & Hevs).
    { destruct Hdir as [Hdir|(entries & Hdir & Hnone)].
      - exists [], ("Directory " +:+ dir +:+ " does not exist").
        split; [now apply load_input_file_paths_missing | constructor].
      - destruct (load_input_file_paths_dir fs module_dir dir entries t Hdir)
          as (evs & Hevs & Hrun).
        rewrite (filter_none _ _ Hnone) in Hrun. cbn [map] in Hrun.
        eauto. }
    exists evs, msg. split; [assumption|]. split; [assumption|].
    intros ->. unfold script.
    rewrite (bind_raise _ _ _ _ _ Hrun). split; reflexivity.
  - intros dir' t0 l t' Hrun.
    destruct (fs dir') as [[r bs|entries]|] eqn:Hdir'.
    + rewrite (load_input_file_paths_not_dir fs module_dir dir' r bs t0 Hdir')
        in Hrun. discriminate.
    + destruct (load_input_file_paths_dir fs module_dir dir' entries t0 Hdir')
        as (evs & _ & Hrun').
      rewrite Hrun' in Hrun.
      destruct (map (join dir') _); [discriminate|].
      injection Hrun as <- _. discriminate.
    + rewrite (load_input_file_paths_missing fs module_dir dir' t0 Hdir') in Hrun.
      discriminate.
Qed.

(** A directory that is missing, and one that holds only a text file, a
    sub-directory and a file named [.bin] (which has no extension). *)
Lemma scan_of_spare_directory :
  (disk "spare" = Some (Dir ["notes.txt"; "sub"; ".bin"])
   /\ Forall (fun e => bin_file disk "spare" e = false) ["notes.txt"; "sub"; ".bin"])
  /\ load_input_file_paths disk "/opt/heatmaps" "spare" []
     = (Raise (SystemExit 1),
        [Print "Skipping file notes.txt because it doesn't have the correct file type";
         Print "Could not load file spare/sub because it does not exist";
         Print "Skipping file .bin because it doesn't have the correct file type";
         Print "Input directory spare is empty"])
  /\ exists evs msg,
       load_input_file_paths disk "/opt/heatmaps" "spare" []
       = (Raise (SystemExit 1), ([] ++ evs ++ [Print msg])%list)
       /\ Forall (fun ev => is_print ev = true) evs.
Proof.
  assert (disk "spare" = Some (Dir ["notes.txt"; "sub"; ".bin"])
          /\ Forall (fun e => bin_file disk "spare" e = false)
               ["notes.txt"; "sub"; ".bin"]) as Hdir
    by (split; [reflexivity | repeat constructor]).
  split; [exact Hdir|]. split; [vm_compute; reflexivity|].
  destruct (proj1 (load_input_file_paths_fatal_when_empty disk "/opt/heatmaps"
                     "spare" []
                     (or_intror (ex_intro _ ["notes.txt"; "sub"; ".bin"] Hdir))))
    as (evs & msg & Hrun & Hevs & _).
  exists evs, msg. split; assumption.
Defined.

(* ================================================================== *)
(** ** More on the directory scan *)
(* ================================================================== *)

Section ScanResult.

Variable fs : filesystem.
Variable module_dir : string.

Lemma opened_app (t1 t2 : trace) :
  opened (t1 ++ t2)%list = (opened t1 ++ opened t2)%list.
Proof.
  induction t1 as [|[] t1 IH]; cbn [opened app]; now rewrite ?IH.
Qed.

Lemma saved_app (t1 t2 : trace) :
  saved (t1 ++ t2)%list = (saved t1 ++ saved t2)%list.
Proof.
  induction t1 as [|[] t1 IH]; cbn [saved app]; now rewrite ?IH.
Qed.

Lemma scan_diagnostic_kept (dir e : string) :
  bin_file fs dir e = true -> scan_diagnostic fs dir e = [].
Proof.
  unfold bin_file, scan_diagnostic. intros [-> ->]%andb_true_iff. reflexivity.
Qed.

Lemma scan_diagnostic_quiet (dir : string) (entries : list string) :
  opened (concat (map (scan_diagnostic fs dir) entries)) = []
  /\ saved (concat (map (scan_diagnostic fs dir) entries)) = [].
Proof.
  induction entries as [|e entries [IHo IHs]]; [now split|].
  cbn [map concat]. rewrite opened_app, saved_app, IHo, IHs.
  unfold scan_diagnostic.
  destruct (negb (isfile fs (join dir e))); [now split|].
  destruct (negb (bool_decide ((splitext e).2 = ".bin"))); now split.
Qed.

Lemma scan_entries_exact (dir : string) (entries : list string) :
  forall (acc : list string) (t : trace),
    scan_entries fs dir entries acc t
    = (Return (acc ++ map (join dir)
                        (filter (fun e => bin_file fs dir e = true) entries))%list,
       (t ++ concat (map (scan_diagnostic fs dir) entries))%list).
Proof.
  induction entries as [|e entries IH]; intros acc t.
  - cbn. now rewrite !app_nil_r.
  - cbn [scan_entries map concat]. rewrite filter_cons.
    unfold scan_diagnostic at 1.
    destruct (isfile fs (join dir e)) eqn:Hfile; cbn [negb].
    + destruct (bool_decide ((splitext e).2 = ".bin")) eqn:Hext; cbn [negb].
      * rewrite decide_True by (unfold bin_file; now rewrite Hfile, Hext).
        rewrite IH. cbn [map app]. now rewrite <- app_assoc.
      * rewrite decide_False
          by (unfold bin_file; rewrite Hfile, Hext; discriminate).
        unfold print, emit, mbind, py_bind.
        rewrite IH. now rewrite <- app_assoc.
    + rewrite decide_False by (unfold bin_file; rewrite Hfile; discriminate).
      unfold print, emit, mbind, py_bind.
      rewrite IH. now rewrite <- app_assoc.
Qed.

Lemma load_input_file_paths_exact (dir : string) (entries : list string)
  (t : trace) :
  fs dir = Some (Dir entries) ->
  load_input_file_paths fs module_dir dir t
  = match map (join dir)
              (filter (fun e => bin_file fs dir e = true) entries) with
    | [] =>
        (Raise (SystemExit 1),
         (t ++ concat (map (scan_diagnostic fs dir) entries)
            ++ [Print ("Input directory " +:+ dir +:+ " is empty")])%list)
    | kept =>
        (Return kept, (t ++ concat (map (scan_diagnostic fs dir) entries))%list)
    end.
Proof.
  intros Hdir. unfold load_input_file_paths.
  rewrite data_abs_path_eq. unfold exists_, listdir. rewrite Hdir.
  cbn [negb]. unfold mbind at 1 2, py_bind, mret at 1 2, py_ret.
  unfold mbind at 1, py_bind. rewrite scan_entries_exact. cbn [app].
  destruct (map (join dir) (filter (fun e => bin_file fs dir e = true) entries));
    cbn; unfold print, emit, exit, raise, mbind, py_bind, mret, py_ret;
    [now rewrite <- app_assoc | reflexivity].
Qed.

Lemma join_relative (dir e : string) :
  isabs dir = false -> isabs e = false -> isabs (join dir e) = false.
Proof.
  unfold isabs, join. intros Hdir He. rewrite He.
  destruct dir as [|c dir]; [exact He|].
  destruct (bool_decide (String c dir = "") || endswith sep (String c dir));
    exact Hdir.
Qed.

End ScanResult.

(** X1. The scan of an existing directory that has at least one regular
    file with extension [.bin] returns [join(dir, name)] for exactly these
    entries, in the order [os.listdir] gave them, and prints one line for
    each other entry, in that order; it opens no file. *)
Theorem load_input_file_paths_keeps_bin_files
  (fs : filesystem) (module_dir dir : string) (entries : list string)
  (t : trace) :
  fs dir = Some (Dir entries) ->
  filter (fun e => bin_file fs dir e = true) entries <> [] ->
  load_input_file_paths fs module_dir dir t
  = (Return (map (join dir)
               (filter (fun e => bin_file fs dir e = true) entries)),
     (t ++ concat (map (scan_diagnostic fs dir) entries))%list)
  /\ opened (concat (map (scan_diagnostic fs dir) entries)) = []
  /\ length (concat (map (scan_diagnostic fs dir) entries))
       + length (filter (fun e => bin_file fs dir e = true) entries)
     = length entries.
Proof.
  intros Hdir Hkept. split; [|split].
  - rewrite (load_input_file_paths_exact fs module_dir dir entries t Hdir).
    destruct (filter (fun e => bin_file fs dir e = true) entries) as [|e l];
      [contradiction | reflexivity].
  - apply scan_diagnostic_quiet.
  - clear Hdir Hkept. induction entries as [|e entries IH]; [reflexivity|].
    cbn [map concat length]. rewrite filter_cons, length_app.
    destruct (bin_file fs dir e) eqn:Hbin.
    + rewrite decide_True by reflexivity.
      rewrite (scan_diagnostic_kept fs dir e Hbin). cbn [length]. lia.
    + rewrite decide_False by discriminate.
      assert (length (scan_diagnostic fs dir e) = 1) as ->; [|lia].
      unfold bin_file in Hbin. unfold scan_diagnostic.
      destruct (isfile fs (join dir e)); [|reflexivity].
      cbn in Hbin. now rewrite Hbin.
Qed.

(** The input directory of the test disk. *)
Lemma scan_of_input_directory :
  load_input_file_paths disk "/opt/heatmaps" "input" []
  = (Return ["input/a.bin"; "input/b.bin"; "input/c.bin"],
     [Print "Skipping file notes.txt because it doesn't have the correct file type"]).
Proof.
  assert (disk "input" = Some (Dir ["a.bin"; "notes.txt"; "b.bin"; "c.bin"]))
    as Hdir by reflexivity.
  assert (filter (fun e => bin_file disk "input" e = true)
            ["a.bin"; "notes.txt"; "b.bin"; "c.bin"] <> []) as Hkept
    by (vm_compute; discriminate).
  exact (proj1 (load_input_file_paths_keeps_bin_files disk "/opt/heatmaps"
                  "input" _ [] Hdir Hkept)).
Defined.

(** X2. The scan does not depend on the directory of the module:
    [join(dirname(__file__), d)] is taken only for an absolute [d], and is
    then [d] itself. *)
Theorem load_input_file_paths_ignores_module_dir
  (fs : filesystem) (module_dir1 module_dir2 dir : string) (t : trace) :
  load_input_file_paths fs module_dir1 dir t
  = load_input_file_paths fs module_dir2 dir t.
Proof.
  unfold load_input_file_paths. now rewrite !data_abs_path_eq.
Qed.

(** X3. For a relative input directory (the default [input] is one) whose
    entries are plain names, every path the scan returns is relative. *)
Theorem load_input_file_paths_relative
  (fs : filesystem) (module_dir dir : string) (entries l : list string)
  (t t' : trace) :
  fs dir = Some (Dir entries) ->
  Forall (fun e => isabs e = false) entries ->
  isabs dir = false ->
  load_input_file_paths fs module_dir dir t = (Return l, t') ->
  Forall (fun p => isabs p = false) l.
Proof.
  intros Hdir Hnames Hrel Hrun.
  rewrite (load_input_file_paths_exact fs module_dir dir entries t Hdir) in Hrun.
  assert (l = map (join dir)
                (filter (fun e => bin_file fs dir e = true) entries)) as ->.
  { destruct (map (join dir) _); [discriminate | congruence]. }
  apply Forall_forall. intros p Hp.
  apply list_elem_of_In, in_map_iff in Hp as (e & <- & He).
  apply join_relative; [assumption|].
  apply list_elem_of_In, list_elem_of_filter in He as [_ He].
  eapply Forall_forall in Hnames; eauto.
Qed.

(** The default directory of the test disk. *)
Lemma scan_of_input_directory_relative :
  isabs INPUT_FOLDER = false
  /\ Forall (fun p => isabs p = false)
       ["input/a.bin"; "input/b.bin"; "input/c.bin"].
Proof.
  split; [reflexivity|].
  apply (load_input_file_paths_relative disk "/opt/heatmaps" INPUT_FOLDER
           ["a.bin"; "notes.txt"; "b.bin"; "c.bin"]
           ["input/a.bin"; "input/b.bin"; "input/c.bin"] []
           [Print "Skipping file notes.txt because it doesn't have the correct file type"]
           eq_refl).
  - repeat constructor.
  - reflexivity.
  - vm_compute. reflexivity.
Defined.

(* ================================================================== *)
(** ** More on the frame decoder *)
(* ================================================================== *)

Lemma fromfile_items_short (tail : list byte) :
  length tail < 8 -> fromfile_items tail = [].
Proof.
  intros Hlen. do 8 (destruct tail as [|? tail]; [reflexivity|]).
  cbn [length] in Hlen. lia.
Qed.

Lemma fromfile_items_tail_lt (n : nat) :
  forall bs tail : list byte,
    length bs < n -> length bs mod 8 = 0 -> length tail < 8 ->
    fromfile_items (bs ++ tail) = fromfile_items bs.
Proof.
  induction n as [|n IH]; intros bs tail Hn Hmod Htail; [lia|].
  destruct bs as [|b0 bs]; [now apply fromfile_items_short|].
  do 7 (destruct bs as [|? bs]; [discriminate Hmod|]).
  cbn [app fromfile_items]. f_equal. apply IH.
  - cbn [length] in Hn. lia.
  - cbn [length] in Hmod.
    replace (S (S (S (S (S (S (S (S (length bs)))))))))
      with (length bs + 1 * 8) in Hmod by lia.
    now rewrite Nat.Div0.mod_add in Hmod.
  - assumption.
Qed.

Lemma decode_outcome_of_items (fs1 fs2 : filesystem) (f1 f2 : string)
  (bs1 bs2 : list byte) (width height : Z) :
  fs1 f1 = Some (File true bs1) ->
  fs2 f2 = Some (File true bs2) ->
  fromfile_items bs1 = fromfile_items bs2 ->
  decode_outcome fs1 f1 width height = decode_outcome fs2 f2 width height.
Proof.
  intros Hf1 Hf2 Hitems.
  assert (fromfile bs1 = fromfile bs2) as Hdata
    by (unfold fromfile; now rewrite Hitems).
  unfold decode_outcome, load_depth_data_frames.
  rewrite (bind_return _ _ _ _ _ (read_data_readable fs1 f1 bs1 [] Hf1)).
  rewrite (bind_return _ _ _ _ _ (read_data_readable fs2 f2 bs2 [] Hf2)).
  rewrite Hdata. unfold int_mod.
  destruct (width * height =? 0)%Z; [reflexivity|].
  unfold mbind, py_bind, mret, py_ret.
  destruct (negb (size (fromfile bs2) mod (width * height) =? 0)%Z);
    [reflexivity|].
  now rewrite reshape_trace_uniform,
    (reshape_trace_uniform _ _ ([] ++ [Open f2])%list).
Qed.

(** X4. A source that can be read decodes to an array exactly when width
    and height are positive and their product divides the number of values;
    in every other case the call raises. *)
Theorem readable_source_decodes_iff
  (fs : filesystem) (f : string) (bs : list byte) (width height : Z)
  (t : trace) :
  fs f = Some (File true bs) ->
  (exists a,
     load_depth_data_frames fs f width height t
     = (Return a, (t ++ [Open f])%list))
  <-> (0 < width /\ 0 < height
       /\ Z.of_nat (length bs / 8) mod (width * height) = 0)%Z.
Proof.
  intros Hf. split.
  - intros [a Hrun]. rewrite decode_trace_uniform in Hrun.
    injection Hrun as Hout _.
    destruct (outcome_readable_inv fs f bs width height a Hf Hout)
      as (w & h & -> & -> & Hw & Hh & Hmod & _).
    split; [lia|]. split; [lia|].
    now rewrite <- Nat2Z.inj_mul, <- Nat2Z.inj_mod, Hmod.
  - intros (Hw & Hh & Hmod).
    rewrite <- (Z2Nat.id width), <- (Z2Nat.id height) in Hmod |- * by lia.
    rewrite <- Nat2Z.inj_mul, <- Nat2Z.inj_mod in Hmod.
    eexists. apply (decode_divisible fs f bs); try assumption; lia.
Qed.

(** Twelve values: frames of 4 x 3 fit. *)
Lemma ramp_12_fits_4x3 :
  (0 < 4 /\ 0 < 3 /\ Z.of_nat (length (ramp 12) / 8) mod (4 * 3) = 0)%Z.
Proof.
  apply (readable_source_decodes_iff disk "input/a.bin" (ramp 12) 4 3 [] eq_refl).
  eexists. vm_compute. reflexivity.
Defined.

(** X5. When [width * height] is zero, a source that can be read makes the
    decoder raise [ZeroDivisionError]; the batch loader does not catch it, so
    a batch that starts with such a source ends there without a mapping and
    without opening any other source. *)
Theorem zero_frame_area_ends_batch
  (fs : filesystem) (f : string) (bs : list byte) (width height : Z)
  (rest : list string) (t : trace) :
  fs f = Some (File true bs) ->
  (width * height = 0)%Z ->
  load_depth_data_frames fs f width height t
  = (Raise ZeroDivisionError, (t ++ [Open f])%list)
  /\ load_depth_data_sets fs (f :: rest) width height t
     = (Raise ZeroDivisionError, (t ++ [Open f])%list).
Proof.
  intros Hf Hzero.
  assert (forall t0, load_depth_data_frames fs f width height t0
                     = (Raise ZeroDivisionError, (t0 ++ [Open f])%list)) as Hrun.
  { intros t0. unfold load_depth_data_frames.
    rewrite (bind_return _ _ _ _ _ (read_data_readable fs f bs t0 Hf)).
    unfold int_mod. now rewrite Hzero. }
  split; [apply Hrun|].
  unfold load_depth_data_sets. rewrite load_loop_step.
  unfold decode_outcome, decode_events. now rewrite Hrun.
Qed.

(** Frames of width zero on the test disk. *)
Lemma zero_width_on_disk :
  load_depth_data_sets disk ["input/a.bin"; "input/c.bin"] 0 3 []
  = (Raise ZeroDivisionError, [Open "input/a.bin"]).
Proof.
  exact (proj2 (zero_frame_area_ends_batch disk "input/a.bin" (ramp 12) 0 3
                  ["input/c.bin"] [] eq_refl eq_refl)).
Defined.

(** X6. Bytes after the last complete group of eight are ignored: a file
    of whole groups and the same file with up to seven more bytes decode to
    the same array, or raise the same exception. *)
Theorem trailing_bytes_are_ignored
  (fs1 fs2 : filesystem) (f1 f2 : string) (bs tail : list byte)
  (width height : Z) (t1 t2 : trace) :
  fs1 f1 = Some (File true bs) ->
  fs2 f2 = Some (File true (bs ++ tail)%list) ->
  length bs mod 8 = 0 ->
  length tail < 8 ->
  (load_depth_data_frames fs1 f1 width height t1).1
  = (load_depth_data_frames fs2 f2 width height t2).1.
Proof.
  intros Hf1 Hf2 Hmod Htail.
  rewrite !decode_trace_uniform. cbn [fst].
  apply (decode_outcome_of_items fs1 fs2 f1 f2 bs (bs ++ tail)%list);
    try assumption.
  symmetry. apply (fromfile_items_tail_lt (S (length bs))); [lia | assumption..].
Qed.

(** Twelve values, and the same followed by three stray bytes. *)
Lemma three_stray_bytes :
  (load_depth_data_frames guarded_disk "short.bin" 4 3 []).1
  = (load_depth_data_frames guarded_disk "long.bin" 4 3 []).1.
Proof.
  apply (trailing_bytes_are_ignored guarded_disk guarded_disk "short.bin"
           "long.bin" (ramp 12) [x01; x02; x03] 4 3 [] [] eq_refl eq_refl).
  - reflexivity.
  - cbn [length]. lia.
Defined.

(** X7. Every array the decoder returns is consistent: the product of its
    shape is the length of its buffer.  It is either [np.array([])] (shape
    [(0,)], for a file that was not found) or three-dimensional with the
    requested positive height and width as its last two sides. *)
Theorem decoded_array_is_consistent
  (fs : filesystem) (f : string) (width height : Z) (t t' : trace)
  (a : ndarray) :
  load_depth_data_frames fs f width height t = (Return a, t') ->
  size a = Z.of_nat (length (buffer a))
  /\ ((fs f = None /\ a = array_empty)
      \/ exists k h w : nat,
           shape a = [k; h; w] /\ 0 < h /\ 0 < w
           /\ width = Z.of_nat w /\ height = Z.of_nat h).
Proof.
  intros Hrun. rewrite decode_trace_uniform in Hrun. injection Hrun as Hout _.
  destruct (fs f) as [[[] bs|es]|] eqn:Hf.
  - destruct (outcome_readable_inv fs f bs width height a Hf Hout)
      as (w & h & -> & -> & Hw & Hh & Hmod & ->).
    split; [|right; eauto 10].
    unfold size. cbn [shape buffer foldr]. f_equal.
    rewrite length_fromfile_items.
    rewrite (Nat.div_mod_eq (length bs / 8) (w * h)) at 2. rewrite Hmod. lia.
  - exfalso. unfold decode_outcome in Hout.
    rewrite (decode_locked fs f bs _ _ _ Hf) in Hout. discriminate.
  - exfalso. unfold decode_outcome, load_depth_data_frames in Hout.
    rewrite (bind_raise _ _ _ _ _ (read_data_directory fs f es _ Hf)) in Hout.
    discriminate.
  - destruct (outcome_missing fs f width height Hf) as [Hret _].
    rewrite Hret in Hout. injection Hout as <-.
    split; [reflexivity | now left].
Qed.

(** Twenty-four values in frames of 4 x 3. *)
Lemma ramp_24_is_consistent :
  exists a,
    (load_depth_data_frames disk "input/c.bin" 4 3 []).1 = Return a
    /\ size a = Z.of_nat (length (buffer a)).
Proof.
  destruct (load_depth_data_frames disk "input/c.bin" 4 3 []) as [[a|e] t']
    eqn:Hrun; [|vm_compute in Hrun; discriminate].
  exists a. split; [reflexivity|].
  exact (proj1 (decoded_array_is_consistent disk "input/c.bin" 4 3 [] t' a Hrun)).
Defined.

(* ================================================================== *)
(** ** More on the batch loader *)
(* ================================================================== *)

Section BatchTrace.

Variable fs : filesystem.
Variables width height : Z.

Lemma decode_events_readable (f : string) (bs : list byte) :
  fs f = Some (File true bs) -> decode_events fs f width height = [Open f].
Proof.
  intros Hf. unfold decode_events, load_depth_data_frames.
  rewrite (bind_return _ _ _ _ _ (read_data_readable fs f bs [] Hf)).
  unfold int_mod. destruct (width * height =? 0)%Z; [reflexivity|].
  unfold mbind, py_bind, mret, py_ret.
  destruct (negb (size (fromfile bs) mod (width * height) =? 0)%Z);
    [reflexivity|].
  now rewrite reshape_trace_uniform.
Qed.

Lemma decode_events_quiet (f : string) :
  opened (decode_events fs f width height) = [f]
  /\ saved (decode_events fs f width height) = [].
Proof.
  destruct (fs f) as [[[] bs|es]|] eqn:Hf.
  - now rewrite (decode_events_readable f bs Hf).
  - unfold decode_events. now rewrite (decode_locked fs f bs _ _ _ Hf).
  - unfold decode_events, load_depth_data_frames.
    now rewrite (bind_raise _ _ _ _ _ (read_data_directory fs f es _ Hf)).
  - destruct (outcome_missing fs f width height Hf) as [_ ->]. now split.
Qed.

Lemma source_events_quiet (f : string) :
  opened (source_events fs width height f) = [f]
  /\ saved (source_events fs width height f) = [].
Proof.
  unfold source_events. rewrite opened_app, saved_app.
  destruct (decode_events_quiet f) as [-> ->].
  destruct (decode_outcome fs f width height) as [a|[]]; now split.
Qed.

Lemma batch_events_quiet (names : list string) :
  opened (concat (map (source_events fs width height) names)) = names
  /\ saved (concat (map (source_events fs width height) names)) = [].
Proof.
  induction names as [|f names [IHo IHs]]; [now split|].
  cbn [map concat]. rewrite opened_app, saved_app, IHo, IHs.
  destruct (source_events_quiet f) as [-> ->]. now split.
Qed.

Lemma load_loop_trace_exact (names : list string) :
  forall (d : dict ndarray) (t : trace) (m : dict ndarray) (t' : trace),
    load_loop fs names width height d t = (Return m, t') ->
    t' = (t ++ concat (map (source_events fs width height) names))%list.
Proof.
  induction names as [|f names IH]; intros d t m t' Hrun.
  - cbn in Hrun. injection Hrun as _ <-. cbn. now rewrite app_nil_r.
  - rewrite load_loop_step in Hrun. cbn [map concat]. unfold source_events at 1.
    destruct (decode_outcome fs f width height) as [a|[]];
      try discriminate Hrun;
      apply IH in Hrun as ->; now rewrite <- ?app_assoc, ?app_nil_r.
Qed.

Lemma load_loop_fatal (pre : list string) :
  forall (d : dict ndarray) (t : trace) (f : string) (post : list string)
         (e : exn),
    Forall (fun g => survivable (decode_outcome fs g width height) = true) pre ->
    decode_outcome fs f width height = Raise e ->
    survivable (Raise e) = false ->
    load_loop fs (pre ++ f :: post) width height d t
    = (Raise e,
       (t ++ concat (map (source_events fs width height) pre)
          ++ decode_events fs f width height)%list).
Proof.
  induction pre as [|g pre IH]; intros d t f post e Hpre Hout Hfatal.
  - cbn [app map concat]. rewrite load_loop_step, Hout.
    destruct e; try reflexivity. discriminate Hfatal.
  - apply Forall_cons in Hpre as [Hg Hpre].
    cbn [app map concat]. rewrite load_loop_step. unfold source_events at 1.
    destruct (decode_outcome fs g width height) as [a|[]];
      try discriminate Hg;
      rewrite (IH _ _ f post e Hpre Hout Hfatal);
      now rewrite <- ?app_assoc, ?app_nil_r.
Qed.

Lemma load_loop_app (xs ys : list string) :
  forall (d : dict ndarray) (t : trace),
    load_loop fs (xs ++ ys) width height d t
    = match load_loop fs xs width height d t with
      | (Return d', t1) => load_loop fs ys width height d' t1
      | (Raise e, t1) => (Raise e, t1)
      end.
Proof.
  induction xs as [|f xs IH]; intros d t; [reflexivity|].
  cbn [app]. rewrite !load_loop_step.
  destruct (decode_outcome fs f width height) as [a|[]];
    try reflexivity; apply IH.
Qed.

Lemma survivable_iff (f : string) :
  survivable (decode_outcome fs f width height) = true
  <-> (exists a, decode_outcome fs f width height = Return a)
      \/ (exists msg, decode_outcome fs f width height = Raise (ValueError msg)).
Proof.
  destruct (decode_outcome fs f width height) as [a|[]]; cbn; split;
    try discriminate; eauto;
    intros [[? [=]]|[? [=]]].
Qed.

End BatchTrace.

Section KeyMerge.

Lemma elem_of_foldl_push_key (l : list string) :
  forall (ks : list string) (x : string),
    x ∈ foldl push_key ks l <-> x ∈ ks \/ x ∈ l.
Proof.
  induction l as [|y l IH]; intros ks x; cbn [foldl].
  - rewrite elem_of_nil. tauto.
  - rewrite IH, elem_of_cons. unfold push_key.
    destruct (bool_decide_reflect (y ∈ ks)) as [Hy|Hy].
    + split; [tauto|]. intros [?|[->|?]]; auto.
    + rewrite elem_of_app, list_elem_of_singleton. tauto.
Qed.

Lemma foldl_push_key_twice (l : list string) :
  forall ks : list string,
    foldl push_key ks (foldl push_key [] l) = foldl push_key ks l.
Proof.
  induction l as [|x l IH] using rev_ind; intros ks; [reflexivity|].
  rewrite !foldl_app. cbn [foldl]. unfold push_key at 2.
  destruct (bool_decide_reflect (x ∈ foldl push_key [] l)) as [Hx|Hx].
  - rewrite IH. unfold push_key.
    rewrite bool_decide_eq_true_2; [reflexivity|].
    apply elem_of_foldl_push_key. right.
    apply elem_of_foldl_push_key in Hx as [[]%elem_of_nil|Hx]. exact Hx.
  - rewrite foldl_app. cbn [foldl]. now rewrite IH.
Qed.

End KeyMerge.

(** X8. In the mapping a batch returns, a source has an entry exactly when
    it was listed and its decode returned an array, and the entry is that
    array: no entry depends on the other sources of the list. *)
Theorem batch_entry_iff
  (fs : filesystem) (names : list string) (width height : Z) (t t' : trace)
  (m : dict ndarray) (f : string) (a : ndarray) :
  load_depth_data_sets fs names width height t = (Return m, t') ->
  dict_get m f = Some a
  <-> f ∈ names
      /\ (load_depth_data_frames fs f width height []).1 = Return a.
Proof.
  intros Hrun. split.
  - intros Hget.
    exact (batch_entry_inv fs names width height t t' m f a Hrun Hget).
  - intros [Hin Hout].
    rewrite (batch_entry fs names width height t t' m f Hrun Hin).
    unfold decoded, decode_outcome. now rewrite Hout.
Qed.

(** The entry of the first file of the test disk in a batch of three. *)
Lemma entry_of_first_file :
  exists m t',
    load_depth_data_sets disk ["input/a.bin"; "input/b.bin"; "nowhere.bin"] 4 3 []
    = (Return m, t')
    /\ dict_get m "input/a.bin"
       = Some (mk_ndarray [1; 3; 4] (fromfile_items (ramp 12))).
Proof.
  destruct (load_depth_data_sets disk
              ["input/a.bin"; "input/b.bin"; "nowhere.bin"] 4 3 [])
    as [[m|e] t'] eqn:Hrun; [|vm_compute in Hrun; discriminate].
  exists m, t'. split; [reflexivity|].
  apply (batch_entry_iff disk _ 4 3 [] t' m "input/a.bin" _ Hrun).
  split; [left | vm_compute; reflexivity].
Defined.

(** X9. The batch loader returns a mapping exactly when every listed source
    either decodes or raises [ValueError]; any other exception of a decode
    ends the batch. *)
Theorem batch_returns_iff
  (fs : filesystem) (names : list string) (width height : Z) (t : trace) :
  (exists m t', load_depth_data_sets fs names width height t = (Return m, t'))
  <-> Forall (fun f => survivable (decode_outcome fs f width height) = true)
        names.
Proof.
  unfold load_depth_data_sets. split.
  - intros (m & t' & Hrun). apply Forall_forall. intros f Hf.
    apply survivable_iff.
    exact (load_loop_outcomes fs width height names _ _ _ _ Hrun f Hf).
  - intros Hall. apply load_loop_returns. intros f Hf.
    apply survivable_iff. eapply Forall_forall in Hall; eauto.
Qed.

(** X10. A batch that returns has opened every listed source once, in the
    order of the list (a source listed twice is read twice), and has saved
    no figure; its trace is the traces of the single sources, one after the
    other. *)
Theorem batch_opens_each_source_in_order
  (fs : filesystem) (names : list string) (width height : Z) (t t' : trace)
  (m : dict ndarray) :
  load_depth_data_sets fs names width height t = (Return m, t') ->
  t' = (t ++ concat (map (source_events fs width height) names))%list
  /\ opened (concat (map (source_events fs width height) names)) = names
  /\ saved (concat (map (source_events fs width height) names)) = [].
Proof.
  intros Hrun. split.
  - exact (load_loop_trace_exact fs width height names _ _ _ _ Hrun).
  - apply batch_events_quiet.
Qed.

(** A batch that lists one file twice. *)
Lemma batch_reads_twice :
  exists m evs,
    load_depth_data_sets disk ["input/a.bin"; "nowhere.bin"; "input/a.bin"] 4 3 []
    = (Return m, evs)
    /\ opened evs = ["input/a.bin"; "nowhere.bin"; "input/a.bin"].
Proof.
  destruct (load_depth_data_sets disk
              ["input/a.bin"; "nowhere.bin"; "input/a.bin"] 4 3 [])
    as [[m|e] t'] eqn:Hrun; [|vm_compute in Hrun; discriminate].
  exists m, t'. split; [reflexivity|].
  destruct (batch_opens_each_source_in_order disk _ 4 3 [] t' m Hrun)
    as (-> & Hopened & _).
  exact Hopened.
Defined.

(** X11. The first listed source whose decode raises anything other than
    [ValueError] ends the batch with that exception: the sources before it
    were opened, the sources after it are not, and no mapping is returned
    (the arrays decoded so far are lost). *)
Theorem batch_ends_at_first_fatal_source
  (fs : filesystem) (pre : list string) (f : string) (post : list string)
  (width height : Z) (t : trace) (e : exn) :
  Forall (fun g => survivable (decode_outcome fs g width height) = true) pre ->
  decode_outcome fs f width height = Raise e ->
  survivable (Raise e) = false ->
  load_depth_data_sets fs (pre ++ f :: post) width height t
  = (Raise e,
     (t ++ concat (map (source_events fs width height) pre)
        ++ decode_events fs f width height)%list)
  /\ opened (concat (map (source_events fs width height) pre)
             ++ decode_events fs f width height)%list
     = (pre ++ [f])%list.
Proof.
  intros Hpre Hout Hfatal. split.
  - now apply load_loop_fatal.
  - rewrite opened_app.
    destruct (batch_events_quiet fs width height pre) as [-> _].
    now destruct (decode_events_quiet fs width height f) as [-> _].
Qed.

(** A file that cannot be opened, between two good files. *)
Lemma batch_with_locked_file :
  load_depth_data_sets disk ["input/a.bin"; "locked.bin"; "input/c.bin"] 4 3 []
  = (Raise (PermissionError "locked.bin"),
     [Open "input/a.bin"; Open "locked.bin"]).
Proof.
  assert (Forall (fun g => survivable (decode_outcome disk g 4 3) = true)
            ["input/a.bin"]) as Hpre by (repeat constructor).
  assert (decode_outcome disk "locked.bin" 4 3
          = Raise (PermissionError "locked.bin")) as Hout
    by (vm_compute; reflexivity).
  exact (proj1 (batch_ends_at_first_fatal_source disk ["input/a.bin"]
                  "locked.bin" ["input/c.bin"] 4 3 [] _ Hpre Hout eq_refl)).
Defined.

(** X12. Loading a list in two parts gives the same as loading it whole:
    when the batch over [xs ++ ys] returns, so do the batch over [xs] and,
    started where that one ended, the batch over [ys]; the whole mapping has
    the entries of both (an entry of [ys] equal to, and in place of, one of
    [xs] for the same source), its keys being those of [xs] followed by the
    new ones of [ys]. *)
Theorem batch_of_concatenation
  (fs : filesystem) (xs ys : list string) (width height : Z) (t t' : trace)
  (m : dict ndarray) :
  load_depth_data_sets fs (xs ++ ys) width height t = (Return m, t') ->
  exists m1 t1 m2,
    load_depth_data_sets fs xs width height t = (Return m1, t1)
    /\ load_depth_data_sets fs ys width height t1 = (Return m2, t')
    /\ (forall f,
          dict_get m f
          = match dict_get m2 f with
            | Some a => Some a
            | None => dict_get m1 f
            end)
    /\ keys m = foldl push_key (keys m1) (keys m2).
Proof.
  unfold load_depth_data_sets. intros Hrun.
  rewrite load_loop_app in Hrun.
  destruct (load_loop fs xs width height [] t) as [[m1|e] t1] eqn:Hxs;
    [|discriminate].
  assert (exists m2 t2, load_loop fs ys width height [] t1 = (Return m2, t2))
    as (m2 & t2 & Hys).
  { apply load_loop_returns.
    exact (load_loop_outcomes fs width height ys _ _ _ _ Hrun). }
  assert (t2 = t') as ->.
  { rewrite (load_loop_trace_exact fs width height ys _ _ _ _ Hys).
    now rewrite (load_loop_trace_exact fs width height ys _ _ _ _ Hrun). }
  exists m1, t1, m2. split; [reflexivity|]. split; [exact Hys|]. split.
  - intros f.
    rewrite (load_loop_get fs width height ys _ _ _ _ Hrun f).
    rewrite (load_loop_get fs width height ys _ _ _ _ Hys f).
    cbn [dict_get].
    now destruct (if bool_decide (f ∈ ys) then decoded fs width height f
                  else None).
  - rewrite (load_loop_keys fs width height ys _ _ _ _ Hrun).
    rewrite (load_loop_keys fs width height ys _ _ _ _ Hys).
    cbn [keys map]. now rewrite foldl_push_key_twice.
Qed.

(** The test batch of three, split after its first source. *)
Lemma batch_of_one_and_two :
  exists m m1 t1 m2,
    load_depth_data_sets disk (["input/a.bin"] ++ ["input/b.bin"; "input/c.bin"])
      4 3 []
    = (Return m,
       [Open "input/a.bin"; Open "input/b.bin";
        Print "input/b.bin: Incorrect frame size 4 x 3"; Open "input/c.bin"])
    /\ load_depth_data_sets disk ["input/a.bin"] 4 3 [] = (Return m1, t1)
    /\ load_depth_data_sets disk ["input/b.bin"; "input/c.bin"] 4 3 t1
       = (Return m2,
          [Open "input/a.bin"; Open "input/b.bin";
           Print "input/b.bin: Incorrect frame size 4 x 3"; Open "input/c.bin"])
    /\ keys m = foldl push_key (keys m1) (keys m2).
Proof.
  destruct (load_depth_data_sets disk
              (["input/a.bin"] ++ ["input/b.bin"; "input/c.bin"]) 4 3 [])
    as [[m|e] t'] eqn:Hrun; [|vm_compute in Hrun; discriminate].
  assert (t' = [Open "input/a.bin"; Open "input/b.bin";
                Print "input/b.bin: Incorrect frame size 4 x 3";
                Open "input/c.bin"]) as ->
    by (vm_compute in Hrun; now injection Hrun as _ <-).
  destruct (batch_of_concatenation disk ["input/a.bin"]
              ["input/b.bin"; "input/c.bin"] 4 3 [] _ m Hrun)
    as (m1 & t1 & m2 & H1 & H2 & _ & Hkeys).
  exists m, m1, t1, m2. repeat split; assumption || reflexivity.
Defined.

(** X13. A returned mapping has no more entries than the list has sources:
    it has one entry for each distinct listed source that was not
    excluded. *)
Theorem batch_size
  (fs : filesystem) (names : list string) (width height : Z) (t t' : trace)
  (m : dict ndarray) :
  load_depth_data_sets fs names width height t = (Return m, t') ->
  length m <= length names
  /\ length m
     = length (remove_dups
                 (filter (fun f => excluded fs width height f = false) names)).
Proof.
  intros Hrun. unfold load_depth_data_sets in Hrun.
  pose proof (load_loop_keys fs width height names _ _ _ _ Hrun) as Hkeys.
  cbn [keys map] in Hkeys.
  destruct (foldl_push_key
              (filter (fun f => excluded fs width height f = false) names)
              [] (@NoDup_nil_2 string))
    as (ext & Hext & Hsub & Hnd & Hmem).
  cbn [app] in Hext, Hnd.
  assert (length m = length ext) as ->.
  { rewrite <- Hext, <- Hkeys. unfold keys. now rewrite length_map. }
  split.
  - etransitivity; [exact (sublist_length _ _ Hsub)|].
    apply sublist_length, sublist_filter.
  - apply Permutation_length, NoDup_Permutation;
      [assumption | apply NoDup_remove_dups|].
    intros x. rewrite Hmem, elem_of_remove_dups.
    split; [tauto|]. intros ?. split; [assumption | apply not_elem_of_nil].
Qed.

(** Four names, one of them twice and one excluded: two entries. *)
Lemma batch_size_of_four :
  exists m t',
    load_depth_data_sets disk
      ["input/c.bin"; "input/b.bin"; "input/a.bin"; "input/c.bin"] 4 3 []
    = (Return m, t')
    /\ length m <= 4.
Proof.
  destruct (load_depth_data_sets disk
              ["input/c.bin"; "input/b.bin"; "input/a.bin"; "input/c.bin"] 4 3 [])
    as [[m|e] t'] eqn:Hrun; [|vm_compute in Hrun; discriminate].
  exists m, t'. split; [reflexivity|].
  exact (proj1 (batch_size disk _ 4 3 [] t' m Hrun)).
Defined.

(* ================================================================== *)
(** ** Rendering and the script *)
(* ================================================================== *)

Section Rendering.

Variable fs : filesystem.

Lemma decode_return_cases (f : string) (width height : Z) (a : ndarray) :
  decode_outcome fs f width height = Return a ->
  a = array_empty \/ exists k h w buf, a = mk_ndarray [k; h; w] buf.
Proof.
  intros Hout. destruct (fs f) as [[[] bs|es]|] eqn:Hf.
  - destruct (outcome_readable_inv fs f bs width height a Hf Hout)
      as (w & h & _ & _ & _ & _ & _ & ->).
    right. eauto.
  - unfold decode_outcome in Hout.
    rewrite (decode_locked fs f bs _ _ _ Hf) in Hout. discriminate.
  - unfold decode_outcome, load_depth_data_frames in Hout.
    rewrite (bind_raise _ _ _ _ _ (read_data_directory fs f es _ Hf)) in Hout.
    discriminate.
  - destruct (outcome_missing fs f width height Hf) as [Hret _].
    rewrite Hret in Hout. injection Hout as <-. now left.
Qed.

Lemma decode_return_renderable (f : string) (width height : Z) (a : ndarray) :
  decode_outcome fs f width height = Return a -> renderable a.
Proof.
  intros [->|(k & h & w & buf & ->)]%decode_return_cases i Hi.
  - unfold shape0, array_empty in Hi. cbn [shape hd] in Hi. lia.
  - unfold shape0 in Hi. cbn [shape hd] in Hi.
    rewrite frame_rows by assumption. eauto.
Qed.

Lemma heatmap_loop_saves (a : ndarray) (path : string) (frame_nos : list nat) :
  forall t : trace,
    (forall i, i ∈ frame_nos -> is_Some (frame a i)) ->
    heatmap_loop a path frame_nos t
    = (Return tt, (t ++ map (SaveFig path) frame_nos)%list).
Proof.
  induction frame_nos as [|i frame_nos IH]; intros t Hall.
  - cbn. now rewrite app_nil_r.
  - cbn [heatmap_loop map].
    destruct (Hall i ltac:(left)) as [g ->].
    unfold emit, mbind, py_bind. rewrite IH.
    + now rewrite <- app_assoc.
    + intros j Hj. apply Hall. now right.
Qed.

Lemma create_heatmap_saves (a : ndarray) (path : string) (t : trace) :
  renderable a ->
  create_heatmap a path t = (Return tt, (t ++ figures (path, a))%list).
Proof.
  intros Ha. unfold create_heatmap, figures. cbn [fst snd].
  apply heatmap_loop_saves.
  intros i Hi. apply Ha. apply elem_of_seq in Hi. lia.
Qed.

Lemma readable_survivable (f : string) (bs : list byte) (w h : nat) :
  fs f = Some (File true bs) -> 0 < w -> 0 < h ->
  survivable (decode_outcome fs f (Z.of_nat w) (Z.of_nat h)) = true.
Proof.
  intros Hf Hw Hh.
  destruct (Nat.eq_dec ((length bs / 8) mod (w * h)) 0) as [Hmod|Hmod].
  - now destruct (outcome_divisible fs f bs w h Hf Hw Hh Hmod) as [-> _].
  - now destruct (outcome_mismatch fs f bs w h Hf Hw Hh Hmod) as [-> _].
Qed.

(** A batch over regular files of which one cannot be opened. *)
Lemma load_loop_locked (w h : nat) (names : list string) :
  0 < w -> 0 < h ->
  forall (d : dict ndarray) (t : trace),
    Forall (fun p => isfile fs p = true) names ->
    Exists (fun p => exists bs, fs p = Some (File false bs)) names ->
    exists p evs,
      load_loop fs names (Z.of_nat w) (Z.of_nat h) d t
      = (Raise (PermissionError p), (t ++ evs)%list)
      /\ p ∈ names
      /\ saved evs = [].
Proof.
  intros Hw Hh. induction names as [|p0 names IH]; intros d t Hfiles Hlocked.
  - now apply Exists_nil in Hlocked.
  - apply Forall_cons in Hfiles as [Hp0 Hfiles].
    rewrite load_loop_step. unfold isfile in Hp0.
    destruct (fs p0) as [[[] bs0|es]|] eqn:Hf; try discriminate Hp0.
    + apply Exists_cons in Hlocked as [[bs Hbs]|Hlocked]; [congruence|].
      pose proof (readable_survivable p0 bs0 w h Hf Hw Hh) as Hsurv.
      pose proof (decode_events_readable fs (Z.of_nat w) (Z.of_nat h) p0 bs0 Hf)
        as ->.
      destruct (decode_outcome fs p0 (Z.of_nat w) (Z.of_nat h)) as [a|[]];
        try discriminate Hsurv.
      * destruct (IH (dict_set d p0 a) (t ++ [Open p0])%list Hfiles Hlocked)
          as (p & evs & -> & Hp & Hsaved).
        exists p, (Open p0 :: evs). rewrite <- app_assoc.
        split; [reflexivity|]. split; [now right | exact Hsaved].
      * destruct (IH d (t ++ [Open p0] ++ [Print (p0 +:+ ": " +:+ msg)])%list
                    Hfiles Hlocked)
          as (p & evs & -> & Hp & Hsaved).
        exists p, (Open p0 :: Print (p0 +:+ ": " +:+ msg) :: evs).
        rewrite <- !app_assoc.
        split; [reflexivity|]. split; [now right | exact Hsaved].
    + unfold decode_outcome, decode_events.
      rewrite (decode_locked fs p0 bs0 _ _ _ Hf). cbn [fst snd app].
      exists p0, [Open p0]. split; [reflexivity|]. split; [left | reflexivity].
Qed.

End Rendering.

Section ScriptFacts.

Variable fs : filesystem.
Variable module_dir : string.

Lemma scan_returns (dir : string) (entries : list string) (t : trace) :
  fs dir = Some (Dir entries) ->
  filter (fun e => bin_file fs dir e = true) entries <> [] ->
  load_input_file_paths fs module_dir dir t
  = (Return (map (join dir) (filter (fun e => bin_file fs dir e = true) entries)),
     (t ++ concat (map (scan_diagnostic fs dir) entries))%list).
Proof.
  intros Hdir Hkept.
  rewrite (load_input_file_paths_exact fs module_dir dir entries t Hdir).
  destruct (filter (fun e => bin_file fs dir e = true) entries) as [|e l];
    [contradiction | reflexivity].
Qed.

Lemma kept_paths_are_files (dir : string) (entries : list string) :
  Forall (fun p => isfile fs p = true)
    (map (join dir) (filter (fun e => bin_file fs dir e = true) entries)).
Proof.
  apply Forall_forall. intros p Hp.
  apply list_elem_of_In, in_map_iff in Hp as (e & <- & He).
  apply list_elem_of_In, list_elem_of_filter in He as [He _].
  unfold bin_file in He. now apply andb_true_iff in He as [He _].
Qed.

End ScriptFacts.

(** X14. [create_heatmap] never indexes out of range on an array that the
    decoder returned, and saves one figure for each index in
    [range(shape[0])], in ascending order: none for the array of a missing
    file, [n / (width * height)] for a file of [n] values. *)
Theorem create_heatmap_saves_every_frame
  (fs : filesystem) (f : string) (width height : Z) (t t' : trace)
  (a : ndarray) (path : string) (t0 : trace) :
  load_depth_data_frames fs f width height t = (Return a, t') ->
  create_heatmap a path t0
  = (Return tt, (t0 ++ map (SaveFig path) (seq 0 (shape0 a)))%list)
  /\ (fs f = None -> shape0 a = 0)
  /\ (forall bs, fs f = Some (File true bs) ->
        Z.of_nat (shape0 a) = (Z.of_nat (length bs / 8) / (width * height))%Z).
Proof.
  intros Hrun. rewrite decode_trace_uniform in Hrun. injection Hrun as Hout _.
  split; [|split].
  - apply (create_heatmap_saves a path t0).
    exact (decode_return_renderable fs f width height a Hout).
  - intros Hf. destruct (outcome_missing fs f width height Hf) as [Hret _].
    rewrite Hret in Hout. now injection Hout as <-.
  - intros bs Hf.
    destruct (outcome_readable_inv fs f bs width height a Hf Hout)
      as (w & h & -> & -> & _ & _ & _ & ->).
    unfold shape0. cbn [shape hd].
    now rewrite <- Nat2Z.inj_mul, <- Nat2Z.inj_div.
Qed.

(** The two frames of the 24-value file. *)
Lemma heatmaps_of_ramp_24 :
  exists a,
    load_depth_data_frames disk "input/c.bin" 4 3 []
    = (Return a, [Open "input/c.bin"])
    /\ create_heatmap a "input/c.bin" []
       = (Return tt, [SaveFig "input/c.bin" 0; SaveFig "input/c.bin" 1]).
Proof.
  eexists. split; [vm_compute; reflexivity|].
  exact (proj1 (create_heatmap_saves_every_frame disk "input/c.bin" 4 3 []
                  [Open "input/c.bin"] _ "input/c.bin" []
                  ltac:(vm_compute; reflexivity))).
Defined.

Lemma heatmap_loop_extends (a : ndarray) (path : string)
  (frame_nos : list nat) :
  forall t : trace,
  exists o rest, heatmap_loop a path frame_nos t = (o, (t ++ rest)%list).
Proof.
  induction frame_nos as [|i frame_nos IH]; intros t.
  - exists (Return tt), []. cbn. now rewrite app_nil_r.
  - cbn [heatmap_loop]. destruct (frame a i) as [g|].
    + unfold emit, mbind, py_bind.
      destruct (IH (t ++ [SaveFig path i])%list) as (o & rest & ->).
      exists o, (SaveFig path i :: rest). now rewrite <- app_assoc.
    + exists (Raise IndexError), []. unfold raise. now rewrite app_nil_r.
Qed.

Lemma render_all_extends (items : dict ndarray) :
  forall t : trace,
  exists o rest, render_all items t = (o, (t ++ rest)%list).
Proof.
  induction items as [|[p a] items IH]; intros t.
  - exists (Return tt), []. cbn. now rewrite app_nil_r.
  - cbn [render_all]. unfold mbind, py_bind, create_heatmap.
    destruct (heatmap_loop_extends a p (seq 0 (shape0 a)) t)
      as ([[]|e] & rest1 & ->).
    + destruct (IH (t ++ rest1)%list) as (o & rest2 & ->).
      exists o, (rest1 ++ rest2)%list. now rewrite <- app_assoc.
    + eauto.
Qed.

(** X15. When the input directory exists, has at least one regular [.bin]
    file, and none of its entries is an unreadable file, the scan and the
    batch load of the script raise nothing: the batch returns a mapping after
    opening every kept file once, in the order of the scan, and the script
    prints the size of that mapping as the number of data sets.  Whatever the
    rendering then does, the trace of the script starts with the lines of the
    scan, the events of the batch and that line, and up to there no figure
    was saved. *)
Theorem script_reaches_the_count_line
  (fs : filesystem) (module_dir : string) (entries : list string) (t : trace) :
  fs INPUT_FOLDER = Some (Dir entries) ->
  filter (fun e => bin_file fs INPUT_FOLDER e = true) entries <> [] ->
  Forall (fun e => forall bs, fs (join INPUT_FOLDER e) <> Some (File false bs))
    entries ->
  exists m batch_events o rest,
    load_depth_data_sets fs
      (map (join INPUT_FOLDER)
         (filter (fun e => bin_file fs INPUT_FOLDER e = true) entries))
      DEFAULT_FRAME_WIDTH DEFAULT_FRAME_HEIGHT
      (t ++ concat (map (scan_diagnostic fs INPUT_FOLDER) entries))%list
    = (Return m,
       (t ++ concat (map (scan_diagnostic fs INPUT_FOLDER) entries)
          ++ batch_events)%list)
    /\ script fs module_dir t
       = (o,
          (t ++ concat (map (scan_diagnostic fs INPUT_FOLDER) entries)
             ++ batch_events
             ++ [Print ("Creating heatmaps for " +:+ pretty (length m)
                        +:+ " datasets")]
             ++ rest)%list)
    /\ opened (concat (map (scan_diagnostic fs INPUT_FOLDER) entries)
               ++ batch_events)%list
       = map (join INPUT_FOLDER)
           (filter (fun e => bin_file fs INPUT_FOLDER e = true) entries)
    /\ saved (concat (map (scan_diagnostic fs INPUT_FOLDER) entries)
              ++ batch_events)%list
       = [].
Proof.
  intros Hdir Hkept Hreadable.
  pose proof (scan_returns fs module_dir INPUT_FOLDER entries t Hdir Hkept)
    as Hscan.
  set (paths := map (join INPUT_FOLDER)
                  (filter (fun e => bin_file fs INPUT_FOLDER e = true) entries))
    in *.
  set (t1 := (t ++ concat (map (scan_diagnostic fs INPUT_FOLDER) entries))%list)
    in *.
  assert (forall p, p ∈ paths ->
            survivable (decode_outcome fs p DEFAULT_FRAME_WIDTH
                          DEFAULT_FRAME_HEIGHT) = true) as Hsurv.
  { intros p Hp. subst paths.
    apply list_elem_of_In, in_map_iff in Hp as (e & <- & He).
    apply list_elem_of_In, list_elem_of_filter in He as [Hbin He].
    eapply Forall_forall in Hreadable; [|exact He].
    unfold bin_file in Hbin. apply andb_true_iff in Hbin as [Hfile _].
    unfold isfile in Hfile.
    destruct (fs (join INPUT_FOLDER e)) as [[[] bs|es]|] eqn:Hf;
      try discriminate Hfile.
    - exact (readable_survivable fs _ bs 80 60 Hf ltac:(lia) ltac:(lia)).
    - now destruct (Hreadable bs). }
  destruct (load_loop_returns fs DEFAULT_FRAME_WIDTH DEFAULT_FRAME_HEIGHT
              paths [] t1) as (m & t2 & Hbatch).
  { intros p Hp. apply survivable_iff. now apply Hsurv. }
  pose proof (load_loop_trace_exact fs _ _ paths _ _ _ _ Hbatch) as Ht2.
  destruct (render_all_extends m
              (t2 ++ [Print ("Creating heatmaps for " +:+ pretty (length m)
                             +:+ " datasets")])%list)
    as (o & rest & Hrender).
  assert (script fs module_dir t
          = (o,
             (t2 ++ [Print ("Creating heatmaps for " +:+ pretty (length m)
                            +:+ " datasets")]
                ++ rest)%list)) as Hscript.
  { unfold script.
    rewrite (bind_return _ _ _ _ _ Hscan).
    unfold load_depth_data_sets.
    rewrite (bind_return _ _ _ _ _ Hbatch).
    unfold print, emit, mbind, py_bind.
    rewrite Hrender. now rewrite <- app_assoc. }
  exists m, (concat (map (source_events fs DEFAULT_FRAME_WIDTH
                            DEFAULT_FRAME_HEIGHT) paths)), o, rest.
  unfold load_depth_data_sets. rewrite Hbatch, Hscript, Ht2.
  subst t1. rewrite <- !app_assoc. split; [reflexivity|]. split; [reflexivity|].
  rewrite opened_app, saved_app.
  destruct (scan_diagnostic_quiet fs INPUT_FOLDER entries) as [-> ->].
  destruct (batch_events_quiet fs DEFAULT_FRAME_WIDTH DEFAULT_FRAME_HEIGHT paths)
    as [-> ->].
  now split.
Qed.

Lemma return_pair_inv {A} (a b : A) (t1 t2 : trace) :
  (Return a, t1) = (Return b, t2) -> b = a /\ t2 = t1.
Proof. now intros [= -> ->]. Qed.

(** The script on the third test disk: of its two files one holds a whole
    frame of 80 x 60 and is kept, so one data set is announced. *)
Lemma script_on_frame_disk :
  exists o rest,
    script frame_disk "/opt/heatmaps" []
    = (o,
       ([Open "input/one.bin"; Open "input/two.bin";
         Print "input/two.bin: Incorrect frame size 80 x 60";
         Print "Creating heatmaps for 1 datasets"] ++ rest)%list).
Proof.
  assert (frame_disk INPUT_FOLDER = Some (Dir ["one.bin"; "two.bin"]))
    as Hdir by reflexivity.
  assert (filter (fun e => bin_file frame_disk INPUT_FOLDER e = true)
            ["one.bin"; "two.bin"] = ["one.bin"; "two.bin"]) as Hfilter
    by reflexivity.
  assert (concat (map (scan_diagnostic frame_disk INPUT_FOLDER)
                    ["one.bin"; "two.bin"]) = []) as Hquiet
    by reflexivity.
  assert (filter (fun e => bin_file frame_disk INPUT_FOLDER e = true)
            ["one.bin"; "two.bin"] <> []) as Hkept
    by (rewrite Hfilter; discriminate).
  assert (Forall (fun e => forall bs,
                    frame_disk (join INPUT_FOLDER e) <> Some (File false bs))
            ["one.bin"; "two.bin"]) as Hreadable
    by (repeat constructor; intros bs; discriminate).
  destruct (script_reaches_the_count_line frame_disk "/opt/heatmaps" _ []
              Hdir Hkept Hreadable)
    as (m & evs & o & rest & Hbatch & Hscript & _).
  exists o, rest. rewrite Hscript. clear Hscript.
  rewrite Hfilter, Hquiet in Hbatch. rewrite Hquiet.
  cbn [map app] in Hbatch |- *.
  change (join INPUT_FOLDER "one.bin") with "input/one.bin" in Hbatch.
  change (join INPUT_FOLDER "two.bin") with "input/two.bin" in Hbatch.
  change DEFAULT_FRAME_WIDTH with (Z.of_nat 80) in Hbatch.
  change DEFAULT_FRAME_HEIGHT with (Z.of_nat 60) in Hbatch.
  assert ((length (replicate (8 * (80 * 60)) x00) / 8) mod (80 * 60) = 0)
    as Hone.
  { rewrite length_replicate, (Nat.mul_comm 8), Nat.div_mul by discriminate.
    apply Nat.Div0.mod_same. }
  assert ((length (ramp 12) / 8) mod (80 * 60) <> 0) as Htwo
    by (vm_compute; discriminate).
  destruct (outcome_divisible frame_disk "input/one.bin" _ 80 60 eq_refl
              ltac:(lia) ltac:(lia) Hone) as [Ho1 He1].
  destruct (outcome_mismatch frame_disk "input/two.bin" _ 80 60 eq_refl
              ltac:(lia) ltac:(lia) Htwo) as [Ho2 He2].
  assert ("Incorrect frame size " +:+ pretty (Z.of_nat 80) +:+ " x "
          +:+ pretty (Z.of_nat 60) = "Incorrect frame size 80 x 60") as Hmsg
    by (vm_compute; reflexivity).
  rewrite Hmsg in Ho2.
  unfold load_depth_data_sets in Hbatch.
  rewrite load_loop_step, Ho1, He1, load_loop_step, Ho2, He2 in Hbatch.
  cbn [load_loop dict_set app] in Hbatch. unfold mret, py_ret in Hbatch.
  apply return_pair_inv in Hbatch as [-> ->].
  cbn [length].
  replace (pretty 1) with "1" by (vm_compute; reflexivity).
  reflexivity.
Defined.

(** X16. When a regular [.bin] file of the input directory cannot be
    opened, the script ends with [PermissionError] (exit status 1) while
    loading, and saves no figure at all, not even for the files it had
    already decoded. *)
Theorem script_saves_nothing_when_a_file_is_locked
  (fs : filesystem) (module_dir : string) (entries : list string)
  (e : string) (bs : list byte) (t : trace) :
  fs INPUT_FOLDER = Some (Dir entries) ->
  e ∈ entries ->
  (splitext e).2 = ".bin" ->
  fs (join INPUT_FOLDER e) = Some (File false bs) ->
  exists p evs,
    script fs module_dir t = (Raise (PermissionError p), (t ++ evs)%list)
    /\ saved evs = []
    /\ exit_status (script fs module_dir t).1 = 1%Z.
Proof.
  intros Hdir He Hext Hlocked.
  assert (bin_file fs INPUT_FOLDER e = true) as Hbin.
  { unfold bin_file, isfile. rewrite Hlocked.
    now rewrite bool_decide_eq_true_2. }
  assert (e ∈ filter (fun e => bin_file fs INPUT_FOLDER e = true) entries)
    as Hkept by now apply list_elem_of_filter.
  pose proof (scan_returns fs module_dir INPUT_FOLDER entries t Hdir
                ltac:(intros Hnil; rewrite Hnil in Hkept;
                      now apply elem_of_nil in Hkept)) as Hscan.
  destruct (load_loop_locked fs 80 60
              (map (join INPUT_FOLDER)
                 (filter (fun e => bin_file fs INPUT_FOLDER e = true) entries))
              ltac:(lia) ltac:(lia) []
              (t ++ concat (map (scan_diagnostic fs INPUT_FOLDER) entries))%list
              (kept_paths_are_files fs INPUT_FOLDER entries))
    as (p & evs & Hbatch & _ & Hsaved).
  { apply Exists_exists. exists (join INPUT_FOLDER e). split; [|eauto].
    apply list_elem_of_In, in_map. now apply list_elem_of_In. }
  assert (script fs module_dir t
          = (Raise (PermissionError p),
             (t ++ concat (map (scan_diagnostic fs INPUT_FOLDER) entries)
                ++ evs)%list)) as Hscript.
  { unfold script. rewrite (bind_return _ _ _ _ _ Hscan).
    unfold load_depth_data_sets.
    change DEFAULT_FRAME_WIDTH with (Z.of_nat 80).
    change DEFAULT_FRAME_HEIGHT with (Z.of_nat 60).
    rewrite (bind_raise _ _ _ _ _ Hbatch). now rewrite <- app_assoc. }
  exists p, (concat (map (scan_diagnostic fs INPUT_FOLDER) entries) ++ evs)%list.
  rewrite Hscript. split; [reflexivity|]. split; [|reflexivity].
  rewrite saved_app, Hsaved.
  now destruct (scan_diagnostic_quiet fs INPUT_FOLDER entries) as [_ ->].
Qed.

(** The guarded disk: the second of three files cannot be opened. *)
Lemma script_on_guarded_disk :
  script guarded_disk "/opt/heatmaps" []
  = (Raise (PermissionError "input/l.bin"),
     [Open "input/a.bin"; Open "input/l.bin"])
  /\ exists p evs,
       script guarded_disk "/opt/heatmaps" []
       = (Raise (PermissionError p), ([] ++ evs)%list)
       /\ saved evs = [].
Proof.
  split; [vm_compute; reflexivity|].
  destruct (script_saves_nothing_when_a_file_is_locked guarded_disk
              "/opt/heatmaps" ["a.bin"; "l.bin"; "z.bin"] "l.bin" [] []
              eq_refl ltac:(right; left) eq_refl eq_refl)
    as (p & evs & Hrun & Hsaved & _).
  exists p, evs. split; assumption.
Defined.
